(** * Energy monitor: telemetry acquisition, retention and aggregation

    A shallow embedding of [app.py]: the memoised device read
    ([get_cached_device_status]), the JSON sample store
    ([save_energy_data]), the day-bucketed history ([get_historical_data],
    [analyze_data]) and the day-detail route with its trapezoidal energy
    integration ([historical_data]).

    Conventions.
    - Python [float] is IEEE binary64, taken from the standard library's
      [SpecFloat] (round to nearest, ties to even), so every arithmetic
      step of the source is evaluated bit for bit.
    - Python [int] is [Z].
    - A naive [datetime] is the number of microseconds since
      0001-01-01T00:00:00; comparison, subtraction of a [timedelta] and
      the difference of two datetimes are then integer arithmetic, as they
      are in the interpreter, and the calendar fields are recomputed for
      [strftime].
    - Exceptions are values of the error monad [result]; a [try]/[except]
      is a [match] on it.
    - [datetime.now()], the device replies and the outcome of a file write
      are inputs of the functions that perform them. *)

From Stdlib Require Import ZArith Lia Bool List Sorted.
From Stdlib Require Import Floats.SpecFloat.
From stdpp Require Import base option list sorting strings gmap.

Local Open Scope Z_scope.

(** ** Exceptions *)

Inductive exn : Set :=
  | OSError              (* open / json.load / json.dump failed *)
  | OverflowError
  | ZeroDivisionError
  | ValueError.

Inductive result (A : Type) : Type :=
  | Ok (a : A)
  | Raise (e : exn).

Arguments Ok {A} a.
Arguments Raise {A} e.

#[global] Instance result_ret : MRet result := fun A a => Ok a.

#[global] Instance result_bind : MBind result := fun A B k r =>
  match r with
  | Ok a => k a
  | Raise e => Raise e
  end.

(** [[f(x) for x in l]] where [f] may raise: elements are evaluated left
    to right and the first exception aborts the comprehension. *)
Fixpoint traverse {A B} (f : A -> result B) (l : list A) : result (list B) :=
  match l with
  | [] => Ok []
  | x :: r => y ← f x; ys ← traverse f r; Ok (y :: ys)
  end.

(** ** Python floats *)

Module F64.

Definition float : Set := spec_float.

Definition prec : Z := 53.
Definition emax : Z := 1024.

Definition zero : float := S754_zero false.

Definition add : float -> float -> float := SFadd prec emax.
Definition sub : float -> float -> float := SFsub prec emax.
Definition mul : float -> float -> float := SFmul prec emax.
Definition div : float -> float -> float := SFdiv prec emax.
Definition ltb : float -> float -> bool := SFltb.
Definition gtb (x y : float) : bool := SFltb y x.
Definition abs : float -> float := SFabs.

Definition is_zero (x : float) : bool :=
  match x with S754_zero _ => true | _ => false end.

Definition is_finite (x : float) : bool :=
  match x with S754_zero _ | S754_finite _ _ _ => true | _ => false end.

(** The binary64 nearest to [a / b], for [b <> 0]: the quotient is
    rounded once, whatever the size of [a] and [b]. *)
Definition ratio (a b : Z) : float :=
  let s := xorb (a <? 0) (b <? 0) in
  match Z.abs a with
  | Z0 => S754_zero s
  | ma =>
      let '(q, e, l) := SFdiv_core_binary prec emax ma 0 (Z.abs b) 0 in
      binary_round_aux prec emax s q e l
  end.

(** [float(n)] for an int [n]; exact up to 2^53, rounded above. *)
Definition of_Z (n : Z) : float := binary_normalize prec emax n 0 false.

(** A decimal literal [n / 10^d], as the parser reads it. *)
Definition dec (n : Z) (d : nat) : float := ratio n (10 ^ Z.of_nat d).

(** [float / float]: division by zero raises. *)
Definition truediv (x y : float) : result float :=
  if is_zero y then Raise ZeroDivisionError else Ok (div x y).

(** [int / int]: the correctly rounded quotient; raises when the divisor
    is zero or the quotient is out of the float range. *)
Definition int_truediv (a b : Z) : result float :=
  if b =? 0 then Raise ZeroDivisionError
  else match ratio a b with
       | S754_infinity _ => Raise OverflowError
       | q => Ok q
       end.

(** [float / n] for an int [n] that converts exactly. *)
Definition div_int (x : float) (n : Z) : result float :=
  truediv x (of_Z n).

(** Nearest integer to [n / d] ([d > 0]), ties to even. *)
Definition round_half_even (n d : Z) : Z :=
  let q := n / d in
  match (2 * (n mod d)) ?= d with
  | Lt => q
  | Gt => q + 1
  | Eq => if Z.even q then q else q + 1
  end.

(** [round(x, ndigits)] on a float with [ndigits >= 0]: the exact value
    of [x] is rounded to [ndigits] decimals, ties to even, and the
    decimal is converted back to the nearest float. Zeros, infinities
    and nan round to themselves. *)
Definition round (x : float) (ndigits : nat) : float :=
  match x with
  | S754_finite s m e =>
      let scale := 10 ^ Z.of_nat ndigits in
      let k := if 0 <=? e then Zpos m * 2 ^ e * scale
               else round_half_even (Zpos m * scale) (2 ^ (- e)) in
      match k with
      | Z0 => S754_zero s
      | _ => ratio (if s then - k else k) scale
      end
  | _ => x
  end.

(** [sum] over floats as a plain left-to-right accumulation from the
    int [0] (the interpreter's algorithm up to Python 3.11). *)
Definition sum_naive (l : list float) : float := fold_left add l zero.

(** [sum] over floats with Neumaier's compensation (Python 3.12 on). *)
Definition neumaier_step (st : float * float) (x : float) : float * float :=
  let '(f, c) := st in
  let t := add f x in
  let c' := if ltb (abs f) (abs x) then add c (add (sub x t) f)
            else add c (add (sub f t) x) in
  (t, c').

Definition sum_neumaier (l : list float) : float :=
  match l with
  | [] => zero
  | x :: r =>
      let '(f, c) := fold_left neumaier_step r (add zero x, zero) in
      if negb (is_zero c) && is_finite c then add f c else f
  end.

End F64.

Abbreviation float := F64.float.

(** ** Naive datetimes *)

Module DT.

(** Microseconds since 0001-01-01T00:00:00. *)
Definition datetime : Set := Z.

Definition us_per_second : Z := 1000000.
Definition us_per_day : Z := 86400 * us_per_second.

(** [datetime.min] and the first instant after [datetime.max]
    (9999-12-31T23:59:59.999999). *)
Definition min_us : Z := 0.
Definition end_us : Z := 3652059 * us_per_day.

Definition in_range (t : Z) : bool := (min_us <=? t) && (t <? end_us).

Definition is_leap (y : Z) : bool :=
  (y mod 4 =? 0) && (negb (y mod 100 =? 0) || (y mod 400 =? 0)).

Definition days_in_month (y m : Z) : Z :=
  if m =? 2 then (if is_leap y then 29 else 28)
  else if (m =? 4) || (m =? 6) || (m =? 9) || (m =? 11) then 30
  else 31.

Definition days_before_year (y : Z) : Z :=
  let p := y - 1 in p * 365 + p / 4 - p / 100 + p / 400.

Definition days_before_month (y m : Z) : Z :=
  fold_left (fun acc k => acc + days_in_month y k)
            (map Z.of_nat (seq 1 (Z.to_nat (m - 1)))) 0.

(** Proleptic Gregorian ordinal, 0001-01-01 being day 1. *)
Definition ymd2ord (y m d : Z) : Z :=
  days_before_year y + days_before_month y m + d.

(** [datetime(y, m, d, hh, mm, ss, us)]. *)
Definition make (y m d hh mm ss us : Z) : datetime :=
  (ymd2ord y m d - 1) * us_per_day
  + ((hh * 60 + mm) * 60 + ss) * us_per_second + us.

Definition year_of_day0 (n : Z) : Z * Z :=
  let n400 := n / 146097 in
  let r := n mod 146097 in
  let n100 := Z.min (r / 36524) 3 in
  let r := r - n100 * 36524 in
  let n4 := r / 1461 in
  let r := r mod 1461 in
  let n1 := Z.min (r / 365) 3 in
  (400 * n400 + 100 * n100 + 4 * n4 + n1 + 1, r - n1 * 365).

Fixpoint month_of_yday (y : Z) (months : list Z) (m r : Z) : Z * Z :=
  match months with
  | [] => (m, r + 1)
  | k :: rest =>
      let len := days_in_month y k in
      if r <? len then (k, r + 1) else month_of_yday y rest (k + 1) (r - len)
  end.

(** Calendar fields (year, month, day) of a datetime. *)
Definition ymd (t : datetime) : Z * Z * Z :=
  let '(y, r) := year_of_day0 (t / us_per_day) in
  let '(m, d) := month_of_yday y (map Z.of_nat (seq 1 12)) 1 r in
  (y, m, d).

Definition hour (t : datetime) : Z := (t mod us_per_day) / (3600 * us_per_second).
Definition minute (t : datetime) : Z := (t mod us_per_day) / (60 * us_per_second) mod 60.

Definition digit (n : Z) : Ascii.ascii := Ascii.ascii_of_nat (48 + Z.to_nat (n mod 10)).

Definition two_digits (n : Z) : string :=
  String (digit (n / 10)) (String (digit n) EmptyString).

Definition four_digits (n : Z) : string :=
  String (digit (n / 1000)) (String (digit (n / 100)) (two_digits n)).

(** [t.strftime('%Y-%m-%d')], the year written with four digits, as it is
    for every year from 1000 on. *)
Definition strftime_date (t : datetime) : string :=
  let '(y, m, d) := ymd t in
  four_digits y +:+ "-" +:+ two_digits m +:+ "-" +:+ two_digits d.

(** [t.strftime('%H:%M')]. *)
Definition strftime_hm (t : datetime) : string :=
  two_digits (hour t) +:+ ":" +:+ two_digits (minute t).

(** [t - timedelta(days=days)]: [timedelta] accepts at most 999999999
    days either way, and the difference must be a representable
    datetime. *)
Definition sub_days (t : datetime) (days : Z) : result datetime :=
  if Z.abs days <=? 999999999 then
    let c := t - days * us_per_day in
    if in_range c then Ok c else Raise OverflowError
  else Raise OverflowError.

(** [(t1 - t2).total_seconds()]: the microsecond count over 10^6, as an
    int true division. *)
Definition total_seconds_between (t1 t2 : datetime) : float :=
  F64.ratio (t1 - t2) us_per_second.

End DT.

Abbreviation datetime := DT.datetime.

(** ** Data model *)

(** The device's data points ([dps]), keyed by data-point number. JSON
    booleans are the ints 0 and 1, as Python treats them. The data points
    are taken to be ints, as the device reports them; a reading of another
    JSON type (a string, null) is outside this model. *)
Abbreviation Dps := (gmap string Z).

(** [data.get(key, 0)] *)
Definition dps_get (data : Dps) (key : string) : Z := default 0 (data !! key).

(** [entry['data']] *)
Record Telemetry : Set := {
  current_ma : Z;
  power_w : float;
  voltage_v : float;
  total_kwh : float;
  is_on : bool
}.

(** One record of [energy_data.json]; the ISO-8601 string of the file is
    kept as the datetime it parses to. *)
Record Entry : Set := {
  timestamp : datetime;
  data : Telemetry
}.

(** [energy_data.json]: either a list of well-formed entries, or a file
    on which [open], [json.load] or the parsing of an entry raises. *)
Inductive File : Set :=
  | Unreadable
  | Contents (entries : list Entry).

(** What happens when the file is rewritten: the write completes, [open]
    raises and the file keeps its contents, or [json.dump] raises after
    [open] has truncated it. *)
Inductive WriteOutcome : Set :=
  | WriteOk
  | OpenFails
  | DumpFails.

(** [with open(JSON_FILE, 'r') as f: json.load(f)] *)
Definition load (f : File) : result (list Entry) :=
  match f with
  | Unreadable => Raise OSError
  | Contents entries => Ok entries
  end.

(** [with open(JSON_FILE, 'w') as f: json.dump(entries, f)] *)
Definition dump (w : WriteOutcome) (f : File) (entries : list Entry)
  : File * result unit :=
  match w with
  | WriteOk => (Contents entries, Ok tt)
  | OpenFails => (f, Raise OSError)
  | DumpFails => (Unreadable, Raise OSError)
  end.

(** ** The memoised device read *)

(** What [device.status()] does when it is called. *)
Inductive StatusReply : Type :=
  | StatusRaises
  | StatusNone
  | StatusDict (dps : option Dps).

(** The body of [get_cached_device_status]; [device] is [None] when the
    initialisation failed, otherwise the reply a call to [status] gets. *)
Definition device_status_body (device : option StatusReply) : Dps :=
  match device with
  | None => ∅
  | Some StatusRaises => ∅
  | Some StatusNone => ∅
  | Some (StatusDict dps) => default ∅ dps
  end.

(** The [lru_cache(maxsize=1)] slot of the zero-argument function: empty,
    or the value of the one call made since the last [cache_clear]. *)
Record Cache : Type := {
  slot : option Dps;
  device_reads : nat          (* calls of [device.status()] so far *)
}.

Definition empty_cache : Cache := {| slot := None; device_reads := 0 |}.

Definition get_cached_device_status (device : option StatusReply) (c : Cache)
  : Dps * Cache :=
  match slot c with
  | Some v => (v, c)
  | None =>
      let v := device_status_body device in
      (v, {| slot := Some v;
             device_reads := match device with
                             | Some _ => S (device_reads c)
                             | None => device_reads c
                             end |})
  end.

Definition cache_clear (c : Cache) : Cache :=
  {| slot := None; device_reads := device_reads c |}.

(** A history of the cache, its calls made one after the other: each call
    of [get] is made at a clock time (in seconds) against the reply the
    device would give at that moment. Calls that overlap in time are
    outside this model. *)
Inductive CacheOp : Type :=
  | OpGet (at_time : Z) (device : option StatusReply)
  | OpClear.

(** What one [get] did: when it was called, what it returned, and
    whether it read the device. *)
Record GetEvent : Type := {
  ev_time : Z;
  ev_value : Dps;
  ev_read : bool;
  ev_reply : option StatusReply
}.

Definition run_op (st : Cache * list GetEvent) (op : CacheOp)
  : Cache * list GetEvent :=
  let '(c, evs) := st in
  match op with
  | OpGet t device =>
      let '(v, c') := get_cached_device_status device c in
      (c', evs ++ [{| ev_time := t; ev_value := v;
                      ev_read := match slot c with
                                 | Some _ => false
                                 | None => true
                                 end;
                      ev_reply := device |}])
  | OpClear => (cache_clear c, evs)
  end.

Definition run_cache (ops : list CacheOp) : Cache * list GetEvent :=
  fold_left run_op ops (empty_cache, []).

(** ** The sample store *)

Definition retention_days : Z := 30.

Definition make_entry (data : Dps) (now : datetime) : result Entry :=
  p ← F64.int_truediv (dps_get data "19") 10;
  v ← F64.int_truediv (dps_get data "20") 10;
  k ← F64.int_truediv (dps_get data "17") 1000;
  Ok {| timestamp := now;
        data := {| current_ma := dps_get data "18";
                   power_w := p;
                   voltage_v := v;
                   total_kwh := k;
                   is_on := negb (dps_get data "1" =? 0) |} |}.

(** [save_energy_data(data)]. [now1] and [now2] are the two readings of
    [datetime.now()], for the entry's timestamp and for the cutoff. The
    result is the file afterwards, and [Raise e] when the handler printed
    "Error saving data". *)
Definition save_energy_data (data : Dps) (now1 now2 : datetime)
    (w : WriteOutcome) (f : File) : File * result unit :=
  match (existing_data ← load f;
         entry ← make_entry data now1;
         let existing_data := existing_data ++ [entry] in
         cutoff ← DT.sub_days now2 retention_days;
         Ok (filter (fun entry => cutoff < timestamp entry) existing_data))
  with
  | Ok existing_data => dump w f existing_data
  | Raise e => (f, Raise e)
  end.

(** One call of [save_energy_data] with everything it reads from its
    environment. *)
Record SaveCall : Type := {
  call_data : Dps;
  call_now1 : datetime;
  call_now2 : datetime;
  call_write : WriteOutcome
}.

Definition save_call (f : File) (c : SaveCall) : File * result unit :=
  save_energy_data (call_data c) (call_now1 c) (call_now2 c) (call_write c) f.

Definition run_saves (calls : list SaveCall) (f : File) : File :=
  fold_left (fun f c => fst (save_call f c)) calls f.

(** The states of the store and of the clock that the program reaches
    from the empty file written by [init_files], when successive readings
    of [datetime.now()] never go back. The first component is the latest
    reading. *)
Inductive reachable : datetime -> File -> Prop :=
  | reach_init (t : datetime) :
      reachable t (Contents [])
  | reach_tick (t t' : datetime) (f : File) :
      reachable t f -> t <= t' -> reachable t' f
  | reach_save (t : datetime) (f : File) (c : SaveCall) :
      reachable t f ->
      t <= call_now1 c -> call_now1 c <= call_now2 c ->
      reachable (call_now2 c) (fst (save_call f c)).

(** ** Day buckets *)

(** [{'power': [], 'voltage': [], 'current': [], 'timestamps': []}] *)
Record Bucket : Set := {
  power : list float;
  voltage : list float;
  current : list Z;
  timestamps : list datetime
}.

Definition empty_bucket : Bucket :=
  {| power := []; voltage := []; current := []; timestamps := [] |}.

(** The four [append]s of one iteration of the grouping loop. *)
Definition bucket_append (entry : Entry) (b : Bucket) : Bucket :=
  {| power := power b ++ [power_w (data entry)];
     voltage := voltage b ++ [voltage_v (data entry)];
     current := current b ++ [current_ma (data entry)];
     timestamps := timestamps b ++ [timestamp entry] |}.

(** A Python dict with string keys: its items in insertion order, each
    key once. *)
Section Dict.
Context {V : Type}.

Fixpoint dict_get (d : list (string * V)) (key : string) : option V :=
  match d with
  | [] => None
  | (k, v) :: rest => if decide (k = key) then Some v else dict_get rest key
  end.

(** [d[key] = f(d[key])] on a [defaultdict] whose factory gives [dflt]:
    a missing key is inserted last. *)
Fixpoint dict_update (dflt : V) (key : string) (f : V -> V)
    (d : list (string * V)) : list (string * V) :=
  match d with
  | [] => [(key, f dflt)]
  | (k, v) :: rest =>
      if decide (k = key) then (k, f v) :: rest
      else (k, v) :: dict_update dflt key f rest
  end.
End Dict.

Definition entry_date (entry : Entry) : string :=
  DT.strftime_date (timestamp entry).

(** The grouping loop of [get_historical_data]. *)
Definition group_by_day (recent_data : list Entry) : list (string * Bucket) :=
  fold_left
    (fun daily_data entry =>
       dict_update empty_bucket (entry_date entry) (bucket_append entry)
                   daily_data)
    recent_data [].

(** [get_historical_data(days)], with the reading [now] of the clock. *)
Definition get_historical_data (days : Z) (now : datetime) (f : File)
  : list (string * Bucket) :=
  match (all_data ← load f;
         cutoff ← DT.sub_days now days;
         let recent_data :=
           filter (fun entry => cutoff < timestamp entry) all_data in
         Ok (group_by_day recent_data))
  with
  | Ok daily_data => daily_data
  | Raise _ => []
  end.

(** ** Daily statistics *)

(** [max(l)] and [min(l)]: the first element is kept until a later one
    compares strictly greater (smaller); an empty list raises. *)
Definition py_extremum {A} (better : A -> A -> bool) (l : list A) : result A :=
  match l with
  | [] => Raise ValueError
  | x :: rest => Ok (fold_left (fun m item => if better item m then item else m) rest x)
  end.

Definition max_float : list float -> result float := py_extremum F64.gtb.
Definition min_float : list float -> result float := py_extremum F64.ltb.
Definition max_int : list Z -> result Z := py_extremum Z.gtb.
Definition min_int : list Z -> result Z := py_extremum Z.ltb.

(** [sum] of a list of ints. *)
Definition sum_int (l : list Z) : Z := fold_left Z.add l 0.

Definition len {A} (l : list A) : Z := Z.of_nat (length l).

Record Stats : Set := { avg : float; max : float; min : float }.

Record DailyStats : Set := {
  stats_power : Stats;
  stats_voltage : Stats;
  stats_current : Stats
}.

Section Aggregator.

(** The interpreter's [sum] on a non-empty list of floats
    ([F64.sum_naive] or [F64.sum_neumaier], by version). *)
Variable float_sum : list float -> float.

(** The dict literal built for one date in [analyze_data]; its values
    are evaluated in the order written. *)
Definition analyze_values (values : Bucket) : result DailyStats :=
  p_avg ← F64.div_int (float_sum (power values)) (len (power values));
  p_max ← max_float (power values);
  p_min ← min_float (power values);
  v_avg ← F64.div_int (float_sum (voltage values)) (len (voltage values));
  v_max ← max_float (voltage values);
  v_min ← min_float (voltage values);
  c_mean ← F64.int_truediv (sum_int (current values)) (len (current values));
  c_avg ← F64.div_int c_mean 1000;
  c_hi ← max_int (current values);
  c_max ← F64.int_truediv c_hi 1000;
  c_lo ← min_int (current values);
  c_min ← F64.int_truediv c_lo 1000;
  Ok {| stats_power := {| avg := F64.round p_avg 2;
                          max := F64.round p_max 2;
                          min := F64.round p_min 2 |};
        stats_voltage := {| avg := F64.round v_avg 2;
                            max := F64.round v_max 2;
                            min := F64.round v_min 2 |};
        stats_current := {| avg := F64.round c_avg 3;
                            max := F64.round c_max 3;
                            min := F64.round c_min 3 |} |}.

(** [analyze_data(data)]: the dates are visited in the dict's order. *)
Fixpoint analyze_data (data : list (string * Bucket))
  : result (list (string * DailyStats)) :=
  match data with
  | [] => Ok []
  | (date, values) :: rest =>
      match power values with
      | [] => analyze_data rest
      | _ :: _ =>
          st ← analyze_values values;
          analysis ← analyze_data rest;
          Ok ((date, st) :: analysis)
      end
  end.

End Aggregator.

(** ** The routes *)

(** [request.args.get('days', 7)] followed by [int(...)]. *)
Inductive DaysArg : Set :=
  | DaysAbsent
  | DaysNotAnInt
  | DaysInt (days : Z).

Definition parse_days (arg : DaysArg) : result Z :=
  match arg with
  | DaysAbsent => Ok 7
  | DaysNotAnInt => Raise ValueError
  | DaysInt days => Ok days
  end.

Inductive HistoryResponse : Set :=
  | HistoryPage (analysis : list (string * DailyStats))   (* 200 *)
  | HistoryError (e : exn).                                (* 500 *)

(** The [/history] route. *)
Definition history (float_sum : list float -> float) (arg : DaysArg)
    (now : datetime) (f : File) : HistoryResponse :=
  match (days ← parse_days arg;
         let historical_data := get_historical_data days now f in
         analyze_data float_sum historical_data)
  with
  | Ok analysis => HistoryPage analysis
  | Raise e => HistoryError e
  end.

(** The loop variables of the integration in [historical_data]:
    [total_watt_hours], and [previous_time] with [previous_power], which
    are [None] together. *)
Definition integrate_state : Set := (float * option (datetime * float))%type.

Definition integrate_step (st : integrate_state) (entry : Entry)
  : integrate_state :=
  let '(total_watt_hours, previous) := st in
  let current_time := timestamp entry in
  let power := power_w (data entry) in
  let total_watt_hours :=
    match previous with
    | Some (previous_time, previous_power) =>
        let time_diff_hours :=
          F64.div (DT.total_seconds_between current_time previous_time)
                  (F64.of_Z 3600) in
        F64.add total_watt_hours
          (F64.mul (F64.div (F64.add previous_power power) (F64.of_Z 2))
                   time_diff_hours)
    | None => total_watt_hours
    end in
  (total_watt_hours, Some (current_time, power)).

(** Lines 244 to 259: the energy of a run of entries, in kWh. *)
Definition integrate (selected_data : list Entry) : float :=
  let '(total_watt_hours, _) :=
    fold_left integrate_step selected_data (F64.zero, None) in
  F64.round (F64.div total_watt_hours (F64.of_Z 1000)) 3.

Record DayDetail : Set := {
  detail_timestamps : list string;
  detail_power : list float;
  detail_voltage : list float;
  detail_current : list float;
  detail_total_kwh : float
}.

Inductive DetailResponse : Set :=
  | DetailOk (d : DayDetail)       (* 200 *)
  | DetailNotFound                 (* 404, 'No data for selected date' *)
  | DetailError (e : exn).         (* 500 *)

(** The [/historical_data] route; [date] is [request.args.get('date')]. *)
Definition historical_data (date : option string) (f : File) : DetailResponse :=
  match load f with
  | Raise e => DetailError e
  | Ok all_data =>
      let selected_data :=
        filter (fun entry => Some (entry_date entry) = date) all_data in
      match selected_data with
      | [] => DetailNotFound
      | _ :: _ =>
          let total_kwh := integrate selected_data in
          match traverse (fun e => F64.int_truediv (current_ma (data e)) 1000)
                         selected_data with
          | Raise e => DetailError e
          | Ok currents =>
              DetailOk
                {| detail_timestamps :=
                     map (fun e => DT.strftime_hm (timestamp e)) selected_data;
                   detail_power := map (fun e => power_w (data e)) selected_data;
                   detail_voltage := map (fun e => voltage_v (data e)) selected_data;
                   detail_current := currents;
                   detail_total_kwh := total_kwh |}
          end
      end
  end.

(** ** The specification's words *)

(** The trapezoidal rule as the specification states it: one term per
    adjacent pair, accumulated in order, divided by 1000 and rounded to
    three decimals. *)
Definition watt_hours_segment (a b : Entry) : float :=
  let dt_hours :=
    F64.div (DT.total_seconds_between (timestamp b) (timestamp a))
            (F64.of_Z 3600) in
  F64.mul (F64.div (F64.add (power_w (data a)) (power_w (data b))) (F64.of_Z 2))
          dt_hours.

Fixpoint adjacent_pairs {A} (l : list A) : list (A * A) :=
  match l with
  | a :: (b :: _) as rest => (a, b) :: adjacent_pairs rest
  | _ => []
  end.

Definition trapezoidal_kwh (samples : list Entry) : float :=
  let segments :=
    map (fun p => watt_hours_segment (fst p) (snd p)) (adjacent_pairs samples) in
  F64.round (F64.div (fold_left F64.add segments F64.zero) (F64.of_Z 1000)) 3.

(** The samples of one calendar date, in order. *)
Definition samples_on (date : string) (samples : list Entry) : list Entry :=
  filter (fun entry => entry_date entry = date) samples.

(** The dates that occur, each once, in order of first occurrence. *)
Definition dates_of (samples : list Entry) : list string :=
  fold_left (fun seen d => if decide (d ∈ seen) then seen else seen ++ [d])
            (map entry_date samples) [].

Section Summarize.

Variable float_sum : list float -> float.

(** avg = sum / count, max and min of one float metric, each rounded to
    [digits] decimals. *)
Definition float_metric (digits : nat) (values : list float) : result Stats :=
  mean ← F64.div_int (float_sum values) (len values);
  hi ← max_float values;
  lo ← min_float values;
  Ok {| avg := F64.round mean digits;
        max := F64.round hi digits;
        min := F64.round lo digits |}.

(** The same for the current: each statistic of the milliamp readings
    is divided by 1000 and rounded to three decimals. *)
Definition current_metric (values : list Z) : result Stats :=
  mean ← F64.int_truediv (sum_int values) (len values);
  mean_a ← F64.div_int mean 1000;
  hi ← max_int values;
  hi_a ← F64.int_truediv hi 1000;
  lo ← min_int values;
  lo_a ← F64.int_truediv lo 1000;
  Ok {| avg := F64.round mean_a 3;
        max := F64.round hi_a 3;
        min := F64.round lo_a 3 |}.

Definition day_stats (part : list Entry) : result DailyStats :=
  p ← float_metric 2 (map (fun e => power_w (data e)) part);
  v ← float_metric 2 (map (fun e => voltage_v (data e)) part);
  c ← current_metric (map (fun e => current_ma (data e)) part);
  Ok {| stats_power := p; stats_voltage := v; stats_current := c |}.

(** [summarize]: one entry per date that has samples. *)
Definition summarize (samples : list Entry)
  : result (list (string * DailyStats)) :=
  traverse (fun date => st ← day_stats (samples_on date samples); Ok (date, st))
           (dates_of samples).

End Summarize.

(** ** Start-up *)

(** The part of the file system that [init_files] looks at: whether the
    two directories exist, and the JSON file if it exists. *)
Record Disk : Set := {
  templates_dir : bool;
  static_dir : bool;
  json_file : option File
}.

(** [os.makedirs(name)] guarded by [os.path.exists(name)]. *)
Definition ensure_dir (makedirs_ok : bool) (present : bool) : result bool :=
  if present then Ok true
  else if makedirs_ok then Ok true else Raise OSError.

(** [init_files()]. The function has no handler: an exception leaves what
    was done before it and reaches the caller. *)
Definition init_files (makedirs_ok : bool) (w : WriteOutcome) (d : Disk)
  : Disk * result unit :=
  match ensure_dir makedirs_ok (templates_dir d) with
  | Raise e => (d, Raise e)
  | Ok t =>
      match ensure_dir makedirs_ok (static_dir d) with
      | Raise e =>
          ({| templates_dir := t; static_dir := static_dir d;
              json_file := json_file d |}, Raise e)
      | Ok s =>
          match json_file d with
          | Some f =>
              ({| templates_dir := t; static_dir := s; json_file := Some f |},
               Ok tt)
          | None =>
              match w with
              | WriteOk =>
                  ({| templates_dir := t; static_dir := s;
                      json_file := Some (Contents []) |}, Ok tt)
              | OpenFails =>
                  ({| templates_dir := t; static_dir := s; json_file := None |},
                   Raise OSError)
              | DumpFails =>
                  ({| templates_dir := t; static_dir := s;
                      json_file := Some Unreadable |}, Raise OSError)
              end
          end
      end
  end.

(** The device object: its id, address, key and protocol version. *)
Record Device : Set := {
  dev_id : string;
  dev_ip : string;
  dev_key : string;
  dev_version : float
}.

(** The loop over [devices.items()]: the address of the first device whose
    ['gwId'] is [device_id], or the empty string. *)
Fixpoint discover (device_id : string) (devices : list (string * option string))
  : string :=
  match devices with
  | [] => ""
  | (ip, gw_id) :: rest =>
      if decide (gw_id = Some device_id) then ip else discover device_id rest
  end.

(** [initialize_device()]. [device_ip] is the environment's [DEVICE_IP]
    ([""] when unset), [scan] what [tinytuya.deviceScan()] does when it is
    called, [version] what [float(VERSION)] does; the construction of the
    device object is taken to succeed. The handler turns every exception
    into [None], so the kind of the one raised when no device is found does
    not matter. *)
Definition initialize_device (device_id local_key device_ip : string)
    (scan : result (list (string * option string))) (version : result float)
  : option Device :=
  match (device_ip ←
           (if decide (device_ip = "") then
              devices ← scan;
              let device_ip := discover device_id devices in
              if decide (device_ip = "") then Raise ValueError else Ok device_ip
            else Ok device_ip);
         v ← version;
         Ok {| dev_id := device_id; dev_ip := device_ip; dev_key := local_key;
               dev_version := v |})
  with
  | Ok device => Some device
  | Raise _ => None
  end.

(** ** The polling loop *)

(** [x >= y] on floats. *)
Definition float_ge (x y : float) : bool := SFleb y x.

Definition STORAGE_INTERVAL : Z := 300.

(** The variables that one iteration of [monitor_energy] reads and
    writes. *)
Record MonitorState : Type := {
  last_save_time : float;
  mon_cache : Cache;
  mon_file : File
}.

(** What one iteration reads from its environment: [time.time()] in the
    test, the device, the inputs of [save_energy_data], and [time.time()]
    after the save. *)
Record MonitorInputs : Type := {
  time_check : float;
  mon_device : option StatusReply;
  mon_now1 : datetime;
  mon_now2 : datetime;
  mon_write : WriteOutcome;
  time_saved : float
}.

(** The body of the [while True] loop of [monitor_energy], up to the
    [time.sleep(60)]. *)
Definition monitor_iteration (i : MonitorInputs) (st : MonitorState)
  : MonitorState :=
  if float_ge (F64.sub (time_check i) (last_save_time st))
              (F64.of_Z STORAGE_INTERVAL)
  then
    let c := cache_clear (mon_cache st) in
    let '(data, c) := get_cached_device_status (mon_device i) c in
    if decide (data = ∅) then
      {| last_save_time := last_save_time st; mon_cache := c;
         mon_file := mon_file st |}
    else
      {| last_save_time := time_saved i; mon_cache := c;
         mon_file := fst (save_energy_data data (mon_now1 i) (mon_now2 i)
                            (mon_write i) (mon_file st)) |}
  else st.

(** ** The dashboard, live and switch routes *)

(** A template or JSON value that is an int in one branch and a float in
    another. *)
Inductive num : Set :=
  | Int (n : Z)
  | Float (x : float).

(** The context passed to [dashboard.html]. *)
Record Dashboard : Set := {
  dash_is_on : option bool;
  dash_current_ma : num;
  dash_power_w : num;
  dash_voltage_v : num;
  dash_total_kwh : num
}.

(** The page of the [except] branch of [index]. *)
Definition blank_dashboard : Dashboard :=
  {| dash_is_on := None; dash_current_ma := Int 0; dash_power_w := Int 0;
     dash_voltage_v := Int 0; dash_total_kwh := Int 0 |}.

Definition dashboard_of_entry (latest : Telemetry) : Dashboard :=
  {| dash_is_on := Some (is_on latest);
     dash_current_ma := Int (current_ma latest);
     dash_power_w := Float (power_w latest);
     dash_voltage_v := Float (voltage_v latest);
     dash_total_kwh := Float (total_kwh latest) |}.

Definition dashboard_of_dps (data : Dps) : result Dashboard :=
  p ← F64.int_truediv (dps_get data "19") 10;
  v ← F64.int_truediv (dps_get data "20") 10;
  k ← F64.int_truediv (dps_get data "17") 1000;
  Ok {| dash_is_on := Some (negb (dps_get data "1" =? 0));
        dash_current_ma := Int (dps_get data "18");
        dash_power_w := Float p;
        dash_voltage_v := Float v;
        dash_total_kwh := Float k |}.

(** The [/] route: the page shown, and the cache afterwards. *)
Definition index (device : option StatusReply) (c : Cache) (f : File)
  : Dashboard * Cache :=
  match load f with
  | Raise _ => (blank_dashboard, c)
  | Ok all_data =>
      match last all_data with
      | Some entry => (dashboard_of_entry (data entry), c)
      | None =>
          let '(data, c) := get_cached_device_status device c in
          match dashboard_of_dps data with
          | Ok page => (page, c)
          | Raise _ => (blank_dashboard, c)
          end
      end
  end.

(** [float(n)] for an int [n]: raises when [n] is out of the float
    range. *)
Definition float_of_int (n : Z) : result float :=
  match F64.of_Z n with
  | S754_infinity _ => Raise OverflowError
  | x => Ok x
  end.

Record LiveJson : Set := {
  live_is_on : bool;
  live_power : float;
  live_voltage : float;
  live_current : float;
  live_total_kwh : float
}.

Inductive LiveResponse : Set :=
  | LiveOk (j : LiveJson)      (* 200 *)
  | LiveError (e : exn).       (* 500 *)

Definition live_json (data : Dps) : result LiveJson :=
  p ← float_of_int (dps_get data "19");
  p ← F64.div_int p 10;
  v ← float_of_int (dps_get data "20");
  v ← F64.div_int v 10;
  c ← float_of_int (dps_get data "18");
  k ← float_of_int (dps_get data "17");
  k ← F64.div_int k 1000;
  Ok {| live_is_on := negb (dps_get data "1" =? 0);
        live_power := p; live_voltage := v; live_current := c;
        live_total_kwh := k |}.

(** The [/live_data] route. *)
Definition live_data (device : option StatusReply) (c : Cache)
  : LiveResponse * Cache :=
  let '(data, c) := get_cached_device_status device c in
  match live_json data with
  | Ok j => (LiveOk j, c)
  | Raise e => (LiveError e, c)
  end.

(** What [device.set_status(on, '1')] does when it is called. *)
Inductive SetStatusOutcome : Set :=
  | SetDone
  | SetRaises.

(** The cache together with the switch commands the device has
    received. *)
Record SwitchState : Type := {
  sw_cache : Cache;
  sw_sent : list bool
}.

(** The body shared by [turn_on] ([on = true]) and [turn_off]: [Ok] is the
    redirect to the dashboard, [Raise] an exception that no handler of the
    program catches. [device] is [None] when there is no device. *)
Definition switch (on : bool) (device : option SetStatusOutcome)
    (st : SwitchState) : SwitchState * result unit :=
  match device with
  | None => (st, Ok tt)
  | Some SetRaises => (st, Raise OSError)
  | Some SetDone =>
      ({| sw_cache := cache_clear (sw_cache st);
          sw_sent := sw_sent st ++ [on] |}, Ok tt)
  end.

Definition turn_on : option SetStatusOutcome -> SwitchState
                     -> SwitchState * result unit := switch true.
Definition turn_off : option SetStatusOutcome -> SwitchState
                      -> SwitchState * result unit := switch false.

(** ** Concrete data *)

Definition noon : datetime := DT.make 2024 3 5 12 0 0 0.
Definition half_past : datetime := DT.make 2024 3 5 12 30 0 0.
Definition one_pm : datetime := DT.make 2024 3 5 13 0 0 0.

(** A reading of [w] watts: data point 19 holds tenths of a watt. *)
Definition dps_watts (w : Z) : Dps := {[ "19" := w * 10 ]}.

Definition call_at (t : datetime) (w : Z) : SaveCall :=
  {| call_data := dps_watts w; call_now1 := t; call_now2 := t;
     call_write := WriteOk |}.

Definition three_samples : File :=
  run_saves [call_at noon 100; call_at half_past 150; call_at one_pm 50]
            (Contents []).

(** ** Auxiliary definitions for the statements *)

(** The bucket that holds exactly the samples of [part]. *)
Definition bucket_of (part : list Entry) : Bucket :=
  {| power := map (fun e => power_w (data e)) part;
     voltage := map (fun e => voltage_v (data e)) part;
     current := map (fun e => current_ma (data e)) part;
     timestamps := map timestamp part |}.

(** An entry that carries only a time and a power. *)
Definition reading (t : datetime) (watts : Z) : Entry :=
  {| timestamp := t;
     data := {| current_ma := 0; power_w := F64.of_Z watts;
                voltage_v := F64.zero; total_kwh := F64.zero; is_on := true |} |}.

Definition minutes (n : Z) : Z := n * 60 * DT.us_per_second.

Definition march_5 (hh mm : Z) : datetime := DT.make 2024 3 5 hh mm 0 0.

Definition ten_twenty_thirty : list Entry :=
  [reading (march_5 9 0) 10; reading (march_5 9 5) 20; reading (march_5 9 10) 30].

(** A call made 36 days after [three_samples] was filled. *)
Definition april_call : SaveCall := call_at (DT.make 2024 4 10 12 0 0 0) 80.

Definition march_5_bucket : Bucket :=
  default empty_bucket
    (dict_get (get_historical_data 7 one_pm three_samples) "2024-03-05"%string).

Definition dps_a : Dps := dps_watts 100.

Definition dps_b : Dps := dps_watts 200.

Definition replies (dps : Dps) : option StatusReply := Some (StatusDict (Some dps)).

(** A read fails when [status()] raises, returns [None], or returns a
    dict without ['dps'] (the error dict of the device library). *)
Definition read_fails (device : option StatusReply) : bool :=
  match device with
  | Some StatusRaises | Some StatusNone | Some (StatusDict None) => true
  | _ => false
  end.

(** The cache after a successful read of 100 W and a [cache_clear]. *)
Definition cleared_after_good_read : Cache :=
  cache_clear (snd (get_cached_device_status (replies dps_a) empty_cache)).

(** Two calls an hour apart, the device reporting 100 W and then 200 W. *)
Definition one_hour_apart : list CacheOp :=
  [OpGet 0 (replies dps_a); OpGet 3600 (replies dps_b)].

(** A good read, an invalidation, and a failing read at the same time. *)
Definition good_then_failing : list CacheOp :=
  [OpGet 5 (replies dps_a); OpClear; OpGet 5 (Some StatusRaises)].

(** File order is time order. *)
Definition time_ordered (entries : list Entry) : Prop :=
  StronglySorted (fun a b => timestamp a <= timestamp b) entries.

(** The invariant of the reachable states: the entries are in time order
    and none is stamped later than the latest clock reading. *)
Definition store_inv (t : datetime) (f : File) : Prop :=
  match f with
  | Unreadable => True
  | Contents l => time_ordered l /\ Forall (fun e => timestamp e <= t) l
  end.

(** A call whose [open] for writing fails. *)
Definition failing_open_call : SaveCall :=
  {| call_data := dps_watts 80; call_now1 := one_pm; call_now2 := one_pm;
     call_write := OpenFails |}.

(** The cutoff of a call of [save_energy_data]. *)
Definition call_cutoff (c : SaveCall) : Z :=
  call_now2 c - retention_days * DT.us_per_day.

(** The page and the JSON object computed from an empty [dps] dict. *)
Definition zero_dashboard : Dashboard :=
  {| dash_is_on := Some false; dash_current_ma := Int 0;
     dash_power_w := Float F64.zero; dash_voltage_v := Float F64.zero;
     dash_total_kwh := Float F64.zero |}.

Definition zero_live : LiveJson :=
  {| live_is_on := false; live_power := F64.zero; live_voltage := F64.zero;
     live_current := F64.zero; live_total_kwh := F64.zero |}.

(** Whether an iteration of the polling loop finds a save due. *)
Definition save_due (i : MonitorInputs) (st : MonitorState) : bool :=
  float_ge (F64.sub (time_check i) (last_save_time st))
           (F64.of_Z STORAGE_INTERVAL).

(** Successive iterations of the polling loop. *)
Definition run_monitor (inputs : list MonitorInputs) (st : MonitorState)
  : MonitorState :=
  fold_left (fun st i => monitor_iteration i st) inputs st.

(** The readings of [datetime.now()] made by the iterations never go
    back, starting from the reading [t]. *)
Fixpoint clock_never_goes_back (t : datetime) (inputs : list MonitorInputs)
  : Prop :=
  match inputs with
  | [] => True
  | i :: rest =>
      t <= mon_now1 i /\ mon_now1 i <= mon_now2 i /\
      clock_never_goes_back (mon_now2 i) rest
  end.

(** An iteration made 400 s after the last save, at 13:00, with a device
    that does not answer. *)
Definition dead_device_iteration : MonitorInputs :=
  {| time_check := F64.of_Z 1400; mon_device := Some StatusRaises;
     mon_now1 := one_pm; mon_now2 := one_pm; mon_write := WriteOk;
     time_saved := F64.of_Z 1401 |}.

(** The same with a device that reports 80 W. *)
Definition live_device_iteration : MonitorInputs :=
  {| time_check := F64.of_Z 1400; mon_device := replies (dps_watts 80);
     mon_now1 := one_pm; mon_now2 := one_pm; mon_write := WriteOk;
     time_saved := F64.of_Z 1401 |}.

Definition monitor_at_1000 (f : File) : MonitorState :=
  {| last_save_time := F64.of_Z 1000; mon_cache := empty_cache; mon_file := f |}.

(** The cache after a cleared slot was filled by a read that gave no
    data. *)
Definition emptied_cache (device : option StatusReply) (c : Cache) : Cache :=
  snd (get_cached_device_status device (cache_clear c)).

(** A disk on which nothing exists yet, and one that holds three
    samples. *)
Definition fresh_disk : Disk :=
  {| templates_dir := false; static_dir := false; json_file := None |}.

Definition used_disk : Disk :=
  {| templates_dir := true; static_dir := true; json_file := Some three_samples |}.

(** A scan that finds two other devices before the one looked for. *)
Definition scan_result : list (string * option string) :=
  [("192.168.1.10", Some "aaaa"); ("192.168.1.11", None);
   ("192.168.1.12", Some "bf493814f4d1067dcbqvx5");
   ("192.168.1.13", Some "bf493814f4d1067dcbqvx5")]%string.

(** The number of samples held by the buckets of a history. *)
Definition bucket_total (daily_data : list (string * Bucket)) : nat :=
  fold_right (fun kv n => (length (timestamps (snd kv)) + n)%nat) 0%nat daily_data.

(** The cutoff of a history query over [days] days at time [now]. *)
Definition history_cutoff (now : datetime) (days : Z) : Z :=
  now - days * DT.us_per_day.

(** The dates of a dict of buckets that [analyze_data] does not skip. *)
Definition dates_with_power (data : list (string * Bucket)) : list string :=
  map fst (filter (fun kv => power (snd kv) <> []) data).

(** An entry moved in time. *)
Definition shift_time (delta : Z) (e : Entry) : Entry :=
  {| timestamp := timestamp e + delta; data := data e |}.

(** The number of [cache_clear] calls in a history of the cache. *)
Fixpoint count_clears (ops : list CacheOp) : nat :=
  match ops with
  | [] => 0%nat
  | OpClear :: rest => S (count_clears rest)
  | OpGet _ _ :: rest => count_clears rest
  end.

(** A run of calls of [get], each at a time and against a device reply. *)
Definition gets (calls : list (Z * option StatusReply)) : list CacheOp :=
  map (fun p => OpGet (fst p) (snd p)) calls.

(** The loop variables [previous_time] and [previous_power], moved in
    time. *)
Definition shift_previous (delta : Z) (previous : option (datetime * float))
  : option (datetime * float) :=
  match previous with
  | Some (t, p) => Some (t + delta, p)
  | None => None
  end.

(** An entry of 2024-03-05 whose current reading, 10^400 mA, is beyond
    the float range. *)
Definition huge_current_entry : Entry :=
  {| timestamp := half_past;
     data := {| current_ma := 10 ^ 400; power_w := F64.of_Z 100;
                voltage_v := F64.of_Z 230; total_kwh := F64.zero;
                is_on := true |} |}.

(** * Properties *)

(** ** The error monad *)

Lemma bind_Ok {A B} (r : result A) (k : A -> result B) (b : B) :
  r ≫= k = Ok b -> exists a, r = Ok a /\ k a = Ok b.
Proof. destruct r as [a|e]; [eauto | discriminate]. Qed.

Ltac inv_bind H :=
  repeat match type of H with
  | _ ≫= _ = Ok _ =>
      let a := fresh "a" in
      let Ha := fresh "Ha" in
      apply bind_Ok in H as (a & Ha & H)
  end.

(** ** The sample store *)

Lemma make_entry_timestamp data now e :
  make_entry data now = Ok e -> timestamp e = now.
Proof.
  unfold make_entry. intros H. inv_bind H. by inversion H.
Qed.

Lemma sub_days_Ok t days c :
  DT.sub_days t days = Ok c -> c = t - days * DT.us_per_day.
Proof.
  unfold DT.sub_days. repeat case_match; congruence.
Qed.

(** The three ways a call of [save_energy_data] can end: an exception
    before the write or at [open] leaves the file as it was, a failed
    [json.dump] leaves it unreadable, and otherwise the file holds the old
    entries and the new one, filtered by the cutoff. *)
Lemma save_call_cases f c :
  (fst (save_call f c) = f /\ snd (save_call f c) <> Ok tt)
  \/ (fst (save_call f c) = Unreadable /\ snd (save_call f c) <> Ok tt)
  \/ (exists l e,
        f = Contents l /\ timestamp e = call_now1 c /\
        save_call f c =
          (Contents (filter (fun x => call_now2 c - retention_days * DT.us_per_day
                                      < timestamp x) (l ++ [e])), Ok tt)).
Proof.
  unfold save_call, save_energy_data.
  destruct (_ ≫= _) as [l'|e] eqn:H; [|by left].
  inv_bind H. destruct f as [|l]; [discriminate|]. simpl in Ha. simplify_eq.
  apply make_entry_timestamp in Ha0. apply sub_days_Ok in Ha1. subst a1.
  destruct (call_write c); simpl; [|by left|by right; left].
  right; right. by exists a, a0.
Qed.

Lemma save_call_success f c f' :
  save_call f c = (f', Ok tt) ->
  exists l e,
    f = Contents l /\ timestamp e = call_now1 c /\
    f' = Contents (filter (fun x => call_now2 c - retention_days * DT.us_per_day
                                    < timestamp x) (l ++ [e])).
Proof.
  intros H. destruct (save_call_cases f c) as [[_ Hn]|[[_ Hn]|(l & e & Hf & Ht & Hs)]].
  - by rewrite H in Hn.
  - by rewrite H in Hn.
  - exists l, e. rewrite H in Hs. by simplify_eq.
Qed.

Lemma Forall_filter_keep {A} (P Q : A -> Prop) `{!forall x, Decision (P x)} l :
  Forall Q l -> Forall Q (filter P l).
Proof.
  rewrite !Forall_forall. intros HQ x [_ Hx]%list_elem_of_filter. auto.
Qed.

Lemma Forall_filter_holds {A} (P : A -> Prop) `{!forall x, Decision (P x)} l :
  Forall P (filter P l).
Proof.
  rewrite Forall_forall. by intros x [Hx _]%list_elem_of_filter.
Qed.

Lemma time_ordered_filter (P : Entry -> Prop) `{!forall e, Decision (P e)} l :
  time_ordered l -> time_ordered (filter P l).
Proof.
  unfold time_ordered. induction l as [|x l IH]; [done|].
  rewrite StronglySorted_cons. intros [Hx Hl].
  rewrite filter_cons. case_decide; [|by auto].
  apply StronglySorted_cons. split; [|by auto].
  by apply Forall_filter_keep.
Qed.

Lemma time_ordered_snoc l e :
  time_ordered l -> Forall (fun x => timestamp x <= timestamp e) l ->
  time_ordered (l ++ [e]).
Proof.
  intros Hl He. apply StronglySorted_app. split_and!.
  - intros x y Hx Hy. apply list_elem_of_singleton in Hy as ->.
    by eapply Forall_forall in He.
  - done.
  - repeat constructor.
Qed.

Lemma store_inv_mono t t' f : t <= t' -> store_inv t f -> store_inv t' f.
Proof.
  destruct f as [|l]; [done|]. intros Ht [Hs Hb]. split; [done|].
  eapply Forall_impl; [exact Hb|]. simpl. lia.
Qed.

Lemma reachable_store_inv t f : reachable t f -> store_inv t f.
Proof.
  induction 1 as [t|t t' f _ IH Ht|t f c _ IH H1 H2].
  - split; constructor.
  - by eapply store_inv_mono.
  - destruct (save_call_cases f c) as [[-> _]|[[-> _]|(l & e & -> & Ht & ->)]].
    + eapply store_inv_mono; [|exact IH]. lia.
    + done.
    + destruct IH as [Hs Hb]. simpl. split.
      * apply time_ordered_filter, time_ordered_snoc; [done|].
        eapply Forall_impl; [exact Hb|]. simpl. lia.
      * apply Forall_filter_keep, Forall_app. split.
        -- eapply Forall_impl; [exact Hb|]. simpl. lia.
        -- repeat constructor. lia.
Qed.

(** C1 (retention). Take any store, any sequence of calls of
    [save_energy_data] on it, and one more call that succeeds, made with a
    clock that does not go back between its two readings. Reading the file
    afterwards succeeds, and every entry read is younger than 30 days,
    both relative to the time stamped on the new entry and relative to the
    time at which the cutoff was taken. *)
Theorem retention_after_append
    (f0 : File) (calls : list SaveCall) (c : SaveCall) (f' : File) :
  save_call (run_saves calls f0) c = (f', Ok tt) ->
  call_now1 c <= call_now2 c ->
  exists l,
    load f' = Ok l /\
    Forall (fun e =>
              call_now1 c - retention_days * DT.us_per_day < timestamp e /\
              call_now2 c - retention_days * DT.us_per_day < timestamp e) l.
Proof.
  intros Hs Hc. apply save_call_success in Hs as (l & e & _ & _ & ->).
  eexists. split; [reflexivity|].
  eapply Forall_impl; [apply Forall_filter_holds|].
  simpl. unfold retention_days. intros x Hx. split; lia.
Qed.

Lemma retention_after_append_witness :
  exists l,
    load (fst (save_call (run_saves [call_at noon 100; call_at half_past 150;
                                     call_at one_pm 50] (Contents []))
                         april_call)) = Ok l /\
    Forall (fun e =>
              call_now1 april_call - retention_days * DT.us_per_day < timestamp e /\
              call_now2 april_call - retention_days * DT.us_per_day < timestamp e) l.
Proof.
  apply (retention_after_append (Contents [])
           [call_at noon 100; call_at half_past 150; call_at one_pm 50]
           april_call).
  - vm_compute. reflexivity.
  - vm_compute. discriminate.
Defined.

(** C9 (order). In every state reached from the empty file by calls of
    [save_energy_data], with a clock whose readings never go back, the
    entries read from the file are in non-decreasing order of timestamp.
    Moreover whatever a further call leaves in the file is a subsequence of
    the old entries followed by one entry stamped with the call's time:
    appending and pruning never reorder. *)
Theorem store_in_time_order (t : datetime) (f : File) :
  reachable t f ->
  (forall l, load f = Ok l -> time_ordered l) /\
  (forall c l',
     load (fst (save_call f c)) = Ok l' ->
     exists l e,
       load f = Ok l /\ timestamp e = call_now1 c /\ sublist l' (l ++ [e])).
Proof.
  intros Hr. split.
  - intros l Hl. apply reachable_store_inv in Hr.
    destruct f; simplify_eq/=. by destruct Hr.
  - intros c l' Hl'.
    destruct (save_call_cases f c) as [[Hf _]|[[Hf _]|(l & e & -> & Ht & Hs)]].
    + rewrite Hf in Hl'. destruct f as [|l]; simplify_eq/=.
      exists l', {| timestamp := call_now1 c;
                    data := {| current_ma := 0; power_w := F64.zero;
                               voltage_v := F64.zero; total_kwh := F64.zero;
                               is_on := false |} |}.
      split_and!; [done|done|]. by apply sublist_inserts_r.
    + rewrite Hf in Hl'. discriminate.
    + rewrite Hs in Hl'. simplify_eq/=. exists l, e.
      split_and!; [done|done|]. apply sublist_filter.
Qed.

Lemma store_in_time_order_witness :
  (forall l, load three_samples = Ok l -> time_ordered l) /\
  (forall c l',
     load (fst (save_call three_samples c)) = Ok l' ->
     exists l e,
       load three_samples = Ok l /\ timestamp e = call_now1 c /\
       sublist l' (l ++ [e])).
Proof.
  apply (store_in_time_order one_pm three_samples).
  assert (H0 : reachable noon (Contents [])) by constructor.
  pose proof (reach_save noon _ (call_at noon 100) H0) as H1.
  pose proof (reach_save noon _ (call_at half_past 150)
                (H1 ltac:(simpl; lia) ltac:(simpl; lia))) as H2.
  pose proof (reach_save half_past _ (call_at one_pm 50)
                (H2 ltac:(vm_compute; discriminate) ltac:(simpl; lia))) as H3.
  exact (H3 ltac:(vm_compute; discriminate) ltac:(simpl; lia)).
Defined.

(** ** Energy integration *)

(** Once a previous sample is known, the loop adds one trapezoid per
    adjacent pair to the running total. *)
Lemma integrate_loop_from (a : Entry) (l : list Entry) (total : float) :
  fst (fold_left integrate_step l
         (total, Some (timestamp a, power_w (data a)))) =
  fold_left F64.add
    (map (fun p => watt_hours_segment (fst p) (snd p)) (adjacent_pairs (a :: l)))
    total.
Proof.
  revert a total. induction l as [|b l IH]; intros a total; [done|].
  change (fold_left integrate_step (b :: l) ?st)
    with (fold_left integrate_step l (integrate_step st b)).
  cbn [integrate_step]. rewrite IH. reflexivity.
Qed.

Lemma integrate_unfold (l : list Entry) :
  integrate l =
  F64.round
    (F64.div (fst (fold_left integrate_step l (F64.zero, None))) (F64.of_Z 1000)) 3.
Proof. unfold integrate. by destruct (fold_left _ _ _). Qed.

(** C2 (integration). For every sequence of samples, sorted or not, the
    loop of [historical_data] returns the trapezoidal sum of the
    specification: one term (p_i + p_{i+1}) / 2 * dt_hours per adjacent
    pair, accumulated in order, divided by 1000 and rounded to three
    decimals. For no sample and for a single sample the result is the
    float 0.0. *)
Theorem integrate_is_trapezoidal :
  (forall samples : list Entry, integrate samples = trapezoidal_kwh samples) /\
  integrate [] = F64.zero /\
  (forall e : Entry, integrate [e] = F64.zero).
Proof.
  split_and!.
  - intros [|a l]; [done|].
    rewrite integrate_unfold. unfold trapezoidal_kwh.
    change (fold_left integrate_step (a :: l) (F64.zero, None))
      with (fold_left integrate_step l
              (F64.zero, Some (timestamp a, power_w (data a)))).
    by rewrite integrate_loop_from.
  - done.
  - done.
Qed.

(** One hour at 100 W then 200 W is 0.15 kWh. *)
Example integrate_one_hour :
  integrate
    [{| timestamp := noon;
        data := {| current_ma := 0; power_w := F64.of_Z 100; voltage_v := F64.zero;
                   total_kwh := F64.zero; is_on := true |} |};
     {| timestamp := one_pm;
        data := {| current_ma := 0; power_w := F64.of_Z 200; voltage_v := F64.zero;
                   total_kwh := F64.zero; is_on := true |} |}]
  = F64.dec 15 2.
Proof. vm_compute. reflexivity. Qed.

(** C3, as stated, fails: on the store filled at 12:00 (100 W), 12:30
    (150 W) and 13:00 (50 W), the day-detail route does not answer 0.087. *)
Lemma day_detail_total_is_not_0_087 :
  ~ exists d,
      historical_data (Some "2024-03-05"%string) three_samples = DetailOk d /\
      detail_total_kwh d = F64.dec 87 3.
Proof.
  intros (d & H & Ht). vm_compute in H. inversion H; subst d; clear H.
  vm_compute in Ht. discriminate.
Qed.

(** C3 (amended). The two trapezoids are (100+150)/2*0.5 = 62.5 Wh and
    (150+50)/2*0.5 = 50 Wh, so the total is 0.1125 kWh and the route
    answers 0.113: on the store filled by three calls of
    [save_energy_data] on 2024-03-05, and, for the integration itself, on
    any three samples half an hour apart with these powers. *)
Theorem day_detail_total_is_0_113 :
  (exists d,
     historical_data (Some "2024-03-05"%string) three_samples = DetailOk d /\
     detail_timestamps d = ["12:00"; "12:30"; "13:00"]%string /\
     detail_power d = [F64.of_Z 100; F64.of_Z 150; F64.of_Z 50] /\
     detail_total_kwh d = F64.dec 113 3) /\
  (forall t : datetime,
     integrate [reading t 100; reading (t + minutes 30) 150;
                reading (t + minutes 60) 50] = F64.dec 113 3) /\
  F64.round (F64.dec 1125 4) 3 = F64.dec 113 3.
Proof.
  split_and!.
  - eexists. split; [vm_compute; reflexivity|]. split_and!; vm_compute; reflexivity.
  - intros t.
    cbv [integrate fold_left integrate_step reading timestamp data power_w
         DT.total_seconds_between].
    replace (t + minutes 30 - t) with (minutes 30) by lia.
    replace (t + minutes 60 - (t + minutes 30)) with (minutes 30)
      by (unfold minutes; lia).
    vm_compute. reflexivity.
  - vm_compute. reflexivity.
Qed.

(** ** Day buckets and daily statistics *)

Lemma bucket_of_snoc part e :
  bucket_of (part ++ [e]) = bucket_append e (bucket_of part).
Proof. unfold bucket_of, bucket_append. simpl. by rewrite !map_app. Qed.

Lemma dates_of_snoc l e :
  dates_of (l ++ [e]) =
  if decide (entry_date e ∈ dates_of l) then dates_of l
  else dates_of l ++ [entry_date e].
Proof. unfold dates_of. by rewrite map_app, fold_left_app. Qed.

Lemma samples_on_snoc date l e :
  samples_on date (l ++ [e]) =
  if decide (entry_date e = date) then samples_on date l ++ [e]
  else samples_on date l.
Proof.
  unfold samples_on. rewrite filter_app, filter_cons, filter_nil.
  case_decide; [done|]. by rewrite app_nil_r.
Qed.

Lemma elem_of_dates_of date l :
  date ∈ dates_of l <-> samples_on date l <> [].
Proof.
  induction l as [|e l IH] using rev_ind.
  - split; [by intros ?%elem_of_nil|done].
  - rewrite dates_of_snoc, samples_on_snoc.
    destruct (decide (entry_date e = date)) as [->|Hne].
    + split; [intros _; by destruct (samples_on _ l)|intros _].
      case_decide; [done|]. apply elem_of_app. right. by apply list_elem_of_singleton.
    + rewrite <- IH. case_decide; [done|].
      rewrite elem_of_app, list_elem_of_singleton. split; [|by left].
      intros [?|?]; [done|by subst].
Qed.

Lemma NoDup_dates_of l : NoDup (dates_of l).
Proof.
  induction l as [|e l IH] using rev_ind; [constructor|].
  rewrite dates_of_snoc. case_decide; [done|].
  apply NoDup_app. split_and!; [done| |apply NoDup_singleton].
  intros x Hx Hd. apply list_elem_of_singleton in Hd. by subst.
Qed.

(** Updating a dict whose items are given by a function of the key. *)
Lemma dict_update_map {V} (dflt : V) (key : string) (f : V -> V)
    (g : string -> V) (keys : list string) :
  NoDup keys ->
  dict_update dflt key f (map (fun k => (k, g k)) keys) =
  if decide (key ∈ keys)
  then map (fun k => (k, if decide (k = key) then f (g k) else g k)) keys
  else map (fun k => (k, g k)) keys ++ [(key, f dflt)].
Proof.
  induction 1 as [|k keys Hk Hnd IH].
  - rewrite decide_False by apply not_elem_of_nil. done.
  - cbn [map dict_update]. destruct (decide (k = key)) as [->|Hne].
    + rewrite decide_True by (by left). f_equal.
      apply map_ext_in. intros k' Hk'%list_elem_of_In.
      destruct (decide (k' = key)) as [->|?]; [by destruct Hk|done].
    + rewrite IH. destruct (decide (key ∈ keys)) as [Hin|Hnin].
      * rewrite decide_True by (by right). done.
      * rewrite decide_False; [done|].
        intros [?|?]%elem_of_cons; by subst.
Qed.

(** The grouping loop builds, for each date that occurs, the bucket of
    that date's samples, the dates in order of first occurrence. *)
Lemma group_by_day_spec (l : list Entry) :
  group_by_day l =
  map (fun date => (date, bucket_of (samples_on date l))) (dates_of l).
Proof.
  induction l as [|e l IH] using rev_ind; [done|].
  unfold group_by_day in *. rewrite fold_left_app. simpl. rewrite IH.
  rewrite dict_update_map by apply NoDup_dates_of.
  rewrite dates_of_snoc. case_decide as Hin.
  - apply map_ext_in. intros d _. rewrite samples_on_snoc.
    destruct (decide (d = entry_date e)) as [->|Hne].
    + rewrite decide_True by done. by rewrite bucket_of_snoc.
    + by rewrite decide_False by done.
  - rewrite map_app. simpl. f_equal.
    + apply map_ext_in. intros d Hd%list_elem_of_In. rewrite samples_on_snoc.
      rewrite decide_False; [done|]. by intros <-.
    + rewrite samples_on_snoc, decide_True by done.
      assert (samples_on (entry_date e) l = []) as ->.
      { destruct (samples_on (entry_date e) l) eqn:E; [done|].
        exfalso. apply Hin, elem_of_dates_of. by rewrite E. }
      done.
Qed.

Section AggregatorProperties.

Variable float_sum : list float -> float.

(** On the bucket of a group of samples, the dict literal of
    [analyze_data] holds the three metrics of the specification. *)
Lemma analyze_values_bucket_of (part : list Entry) :
  analyze_values float_sum (bucket_of part) = day_stats float_sum part.
Proof.
  unfold analyze_values, day_stats, float_metric, current_metric, bucket_of.
  cbn [power voltage current].
  repeat match goal with
  | |- context [@mbind result _ _ _ _ ?r] =>
      lazymatch r with
      | @mbind _ _ _ _ _ _ => fail
      | _ => destruct r; cbn [mbind result_bind]; try reflexivity
      end
  end.
Qed.

Lemma analyze_data_buckets (l : list Entry) (dates : list string) :
  (forall date, date ∈ dates -> samples_on date l <> []) ->
  analyze_data float_sum
    (map (fun date => (date, bucket_of (samples_on date l))) dates) =
  traverse (fun date => st ← day_stats float_sum (samples_on date l); Ok (date, st))
           dates.
Proof.
  induction dates as [|d dates IH]; intros Hne; [done|].
  cbn [map analyze_data traverse].
  rewrite IH by (intros; apply Hne; by right).
  rewrite analyze_values_bucket_of.
  specialize (Hne d ltac:(by left)).
  destruct (samples_on d l) as [|e part] eqn:E; [done|].
  cbn [bucket_of power map].
  destruct (day_stats _ _); cbn [mbind result_bind]; [|done].
  by destruct (traverse _ _).
Qed.

(** Looking a date up in a successful summary. *)
Lemma dict_get_traverse {V} (F : string -> result V) (dates : list string)
    (analysis : list (string * V)) (date : string) :
  traverse (fun d => st ← F d; Ok (d, st)) dates = Ok analysis ->
  (date ∉ dates -> dict_get analysis date = None) /\
  (date ∈ dates -> exists st, F date = Ok st /\ dict_get analysis date = Some st).
Proof.
  revert analysis. induction dates as [|d dates IH]; intros analysis H.
  - simpl in H. simplify_eq. split; [done|by intros ?%elem_of_nil].
  - cbn [traverse] in H. inv_bind H. simplify_eq. inv_bind Ha. simplify_eq.
    destruct (IH _ Ha0) as [IHn IHy]. cbn [dict_get].
    destruct (decide (d = date)) as [->|Hne].
    + split; [intros Hn; destruct Hn; by left|eauto].
    + split.
      * intros Hn. apply IHn. intros ?. apply Hn. by right.
      * intros [?|?]%elem_of_cons; [by subst|auto].
Qed.

End AggregatorProperties.

(** C4 (aggregation). For every sequence of samples, [analyze_data] on the
    day buckets built from it is [summarize]: one entry per date that has
    samples, holding for power and voltage the mean (sum over count), the
    maximum and the minimum rounded to two decimals, and for the current
    the same three statistics of the milliamp readings divided by 1000 and
    rounded to three decimals. A date without samples has no entry, a
    date with samples has the statistics of its own samples, and three
    samples of one date with powers 10, 20 and 30 give the power
    statistics avg 20.0, max 30.0, min 10.0, with either version of the
    interpreter's [sum]. *)
Theorem analyze_data_is_summarize
    (float_sum : list float -> float) (samples : list Entry) :
  analyze_data float_sum (group_by_day samples) = summarize float_sum samples /\
  (forall analysis date,
     analyze_data float_sum (group_by_day samples) = Ok analysis ->
     samples_on date samples = [] ->
     dict_get analysis date = None) /\
  (forall analysis date,
     analyze_data float_sum (group_by_day samples) = Ok analysis ->
     samples_on date samples <> [] ->
     exists st,
       day_stats float_sum (samples_on date samples) = Ok st /\
       dict_get analysis date = Some st) /\
  (forall sum, sum = F64.sum_naive \/ sum = F64.sum_neumaier ->
     exists st,
       analyze_data sum (group_by_day ten_twenty_thirty)
         = Ok [("2024-03-05"%string, st)] /\
       stats_power st = {| avg := F64.of_Z 20; max := F64.of_Z 30;
                           min := F64.of_Z 10 |}).
Proof.
  assert (Heq : forall fs, analyze_data fs (group_by_day samples)
                           = summarize fs samples).
  { intros fs. rewrite group_by_day_spec. unfold summarize.
    apply analyze_data_buckets. intros d. by rewrite elem_of_dates_of. }
  split_and!.
  - apply Heq.
  - intros analysis date H Hnone. rewrite Heq in H.
    eapply dict_get_traverse in H as [Hn _]. apply Hn.
    rewrite elem_of_dates_of. by intros [].
  - intros analysis date H Hsome. rewrite Heq in H.
    eapply (dict_get_traverse (fun d => day_stats float_sum (samples_on d samples)))
      in H as [_ Hy].
    apply Hy. by rewrite elem_of_dates_of.
  - intros sum [->| ->]; eexists; split; vm_compute; reflexivity.
Qed.

Lemma analyze_data_is_summarize_witness :
  dict_get
    [("2024-03-05"%string,
      {| stats_power := {| avg := F64.of_Z 20; max := F64.of_Z 30; min := F64.of_Z 10 |};
         stats_voltage := {| avg := F64.zero; max := F64.zero; min := F64.zero |};
         stats_current := {| avg := F64.zero; max := F64.zero; min := F64.zero |} |})]
    "2024-03-06"%string = None /\
  (exists st,
     day_stats F64.sum_naive (samples_on "2024-03-05"%string ten_twenty_thirty) = Ok st /\
     dict_get
       [("2024-03-05"%string,
         {| stats_power := {| avg := F64.of_Z 20; max := F64.of_Z 30; min := F64.of_Z 10 |};
            stats_voltage := {| avg := F64.zero; max := F64.zero; min := F64.zero |};
            stats_current := {| avg := F64.zero; max := F64.zero; min := F64.zero |} |})]
       "2024-03-05"%string = Some st) /\
  (exists st,
     analyze_data F64.sum_neumaier (group_by_day ten_twenty_thirty)
       = Ok [("2024-03-05"%string, st)] /\
     stats_power st = {| avg := F64.of_Z 20; max := F64.of_Z 30;
                         min := F64.of_Z 10 |}).
Proof.
  destruct (analyze_data_is_summarize F64.sum_naive ten_twenty_thirty)
    as (_ & Habsent & Hpresent & Hexample).
  split_and!.
  - apply Habsent; vm_compute; reflexivity.
  - apply Hpresent; [vm_compute; reflexivity | vm_compute; discriminate].
  - apply Hexample. right. reflexivity.
Defined.

Lemma dict_get_map {V} (g : string -> V) (keys : list string) (key : string) (v : V) :
  dict_get (map (fun k => (k, g k)) keys) key = Some v ->
  key ∈ keys /\ v = g key.
Proof.
  induction keys as [|k keys IH]; [done|]. cbn [map dict_get].
  destruct (decide (k = key)) as [->|Hne].
  - intros [= <-]. split; [by left|done].
  - intros [Hin ->]%IH. split; [by right|done].
Qed.

(** What the history query returns, when it returns anything. *)
Lemma get_historical_data_cases days now f :
  get_historical_data days now f = []
  \/ exists all_data cutoff,
       load f = Ok all_data /\ DT.sub_days now days = Ok cutoff /\
       get_historical_data days now f =
         group_by_day (filter (fun e => cutoff < timestamp e) all_data).
Proof.
  unfold get_historical_data.
  destruct (load f) as [all_data|]; [|by left]. cbn [mbind result_bind].
  destruct (DT.sub_days now days) as [cutoff|]; [|by left].
  right. by exists all_data, cutoff.
Qed.

(** C10 (bucket shape). Whatever the file, the number of days and the
    clock, every bucket that [get_historical_data] returns holds exactly
    the recent samples of its date, one element per sample in each of its
    four lists: the lists have the same, non-zero, length, so the three
    means of [analyze_data] divide by the same count. *)
Theorem bucket_lists_same_length
    (days : Z) (now : datetime) (f : File) (date : string) (b : Bucket) :
  dict_get (get_historical_data days now f) date = Some b ->
  len (power b) = len (timestamps b) /\
  len (voltage b) = len (timestamps b) /\
  len (current b) = len (timestamps b) /\
  0 < len (timestamps b) /\
  exists all_data cutoff,
    load f = Ok all_data /\ DT.sub_days now days = Ok cutoff /\
    b = bucket_of (samples_on date
                     (filter (fun e => cutoff < timestamp e) all_data)).
Proof.
  intros H.
  destruct (get_historical_data_cases days now f)
    as [E|(all_data & cutoff & Hl & Hc & E)]; rewrite E in H; [done|].
  rewrite group_by_day_spec in H.
  apply dict_get_map in H as [Hin ->].
  apply elem_of_dates_of in Hin.
  unfold len, bucket_of. cbn [power voltage current timestamps].
  rewrite !length_map. split_and!; try done.
  - destruct (samples_on date _); [done|]. simpl. lia.
  - by exists all_data, cutoff.
Qed.

Lemma bucket_lists_same_length_witness :
  len (power march_5_bucket) = len (timestamps march_5_bucket) /\
  len (voltage march_5_bucket) = len (timestamps march_5_bucket) /\
  len (current march_5_bucket) = len (timestamps march_5_bucket) /\
  0 < len (timestamps march_5_bucket) /\
  exists all_data cutoff,
    load three_samples = Ok all_data /\ DT.sub_days one_pm 7 = Ok cutoff /\
    march_5_bucket =
      bucket_of (samples_on "2024-03-05"%string
                   (filter (fun e => cutoff < timestamp e) all_data)).
Proof.
  apply (bucket_lists_same_length 7 one_pm three_samples).
  vm_compute. reflexivity.
Defined.

(** ** The day-detail route *)

(** C7 (empty day). When the file is readable and holds no sample of the
    requested date, [historical_data] answers 404 "No data for selected
    date"; it builds no series at all. *)
Theorem empty_day_is_not_found (entries : list Entry) (date : string) :
  samples_on date entries = [] ->
  historical_data (Some date) (Contents entries) = DetailNotFound.
Proof.
  intros H. unfold historical_data. cbn [load].
  replace (filter (fun entry => Some (entry_date entry) = Some date) entries)
    with (samples_on date entries); [by rewrite H|].
  unfold samples_on. apply list_filter_iff. intros e. naive_solver.
Qed.

Lemma empty_day_is_not_found_witness :
  historical_data (Some "2024-03-06"%string)
    (Contents [reading noon 100; reading half_past 150; reading one_pm 50])
  = DetailNotFound.
Proof.
  apply (empty_day_is_not_found
           [reading noon 100; reading half_past 150; reading one_pm 50]
           "2024-03-06"%string).
  vm_compute. reflexivity.
Defined.

(** ** Read failures *)

(** C8, as stated, fails for the history query: on a file that cannot be
    read, [get_historical_data] returns the empty dict and the [/history]
    route answers 200 with an empty analysis, not an error. *)
Lemma history_hides_read_failure :
  load Unreadable = Raise OSError /\
  get_historical_data 7 one_pm Unreadable = [] /\
  history F64.sum_naive (DaysInt 7) one_pm Unreadable = HistoryPage [] /\
  ~ exists e, history F64.sum_naive (DaysInt 7) one_pm Unreadable = HistoryError e.
Proof.
  split_and!; [done|done|done|]. by intros [e He].
Qed.

(** C8 (amended). A failed read is a hard failure on the day-detail route
    only: [historical_data] answers 500 with the error. In the history
    query the handler of [get_historical_data] turns it into the empty
    dict, and [/history] then shows an empty page whenever the [days]
    argument parses. *)
Theorem read_failure_by_route :
  (forall date, historical_data date Unreadable = DetailError OSError) /\
  (forall days now, get_historical_data days now Unreadable = []) /\
  (forall float_sum days now,
     history float_sum (DaysInt days) now Unreadable = HistoryPage []) /\
  (forall float_sum now,
     history float_sum DaysAbsent now Unreadable = HistoryPage []).
Proof. by split_and!. Qed.

(** ** The memoised device read *)

(** C5 (staleness) does not hold of the code: a filled slot is returned
    whatever the time and whatever the device would now reply, without a
    device read. An hour after the first call the second call still
    returns the first value, and the device has been read once. *)
Theorem cached_value_never_expires :
  (forall v n device,
     get_cached_device_status device {| slot := Some v; device_reads := n |}
     = (v, {| slot := Some v; device_reads := n |})) /\
  snd (run_cache one_hour_apart) =
    [{| ev_time := 0; ev_value := dps_a; ev_read := true;
        ev_reply := replies dps_a |};
     {| ev_time := 3600; ev_value := dps_a; ev_read := false;
        ev_reply := replies dps_b |}] /\
  device_reads (fst (run_cache one_hour_apart)) = 1%nat /\
  dps_get dps_a "19" = 1000 /\ dps_get dps_b "19" = 2000.
Proof. split_and!; [done|vm_compute; reflexivity..]. Qed.

(** C6, as stated, fails: the read of the second call fails while a
    known-good value was obtained at that very time, and the call returns
    the empty dict instead of that value. *)
Lemma failed_read_forgets_last_good :
  exists ev1 ev2,
    snd (run_cache good_then_failing) = [ev1; ev2] /\
    read_fails (ev_reply ev1) = false /\ ev_value ev1 = dps_a /\
    ev_time ev2 = ev_time ev1 /\
    ev_read ev2 = true /\ read_fails (ev_reply ev2) = true /\
    ev_value ev2 = ∅ /\ ev_value ev2 <> ev_value ev1.
Proof.
  exists {| ev_time := 5; ev_value := dps_a; ev_read := true;
            ev_reply := replies dps_a |},
         {| ev_time := 5; ev_value := ∅; ev_read := true;
            ev_reply := Some StatusRaises |}.
  split_and!; try (vm_compute; reflexivity).
  cbn [ev_value]. intros H.
  apply (f_equal (fun m : Dps => dps_get m "19")) in H.
  vm_compute in H. discriminate.
Qed.

(** C6 (amended). A call that finds the slot empty and whose device read
    fails returns the empty dict, whether or not an earlier read succeeded:
    no last known-good value is kept. The function returns a value in
    every case: its handler catches every exception. *)
Theorem failed_read_gives_empty (c : Cache) (device : option StatusReply) :
  slot c = None ->
  read_fails device = true ->
  fst (get_cached_device_status device c) = ∅.
Proof.
  intros Hs Hf. unfold get_cached_device_status. rewrite Hs.
  destruct device as [[| |[dps|]]|]; try discriminate; done.
Qed.

Lemma failed_read_gives_empty_witness :
  fst (get_cached_device_status (Some StatusRaises) cleared_after_good_read) = ∅.
Proof.
  apply (failed_read_gives_empty cleared_after_good_read (Some StatusRaises));
    reflexivity.
Defined.

(** * Further properties of the program *)

(** ** Floats: an int that is not zero converts to a float that is not zero *)

Lemma shr_1_digits (mrs : shr_record) (q : positive) :
  shr_m mrs = Zpos q -> (1 < digits2_pos q)%positive ->
  exists q', shr_m (shr_1 mrs) = Zpos q' /\
             (digits2_pos q' + 1 = digits2_pos q)%positive.
Proof.
  destruct mrs as [m r s]. simpl. intros -> Hd.
  destruct q as [q|q|]; simpl in *; [exists q|exists q|]; try (split; [done|lia]).
  lia.
Qed.

Lemma iter_shr_1_digits (n : positive) :
  forall (mrs : shr_record) (q : positive),
    shr_m mrs = Zpos q -> (n < digits2_pos q)%positive ->
    exists q', shr_m (SpecFloat.iter_pos shr_1 n mrs) = Zpos q' /\
               (digits2_pos q' + n = digits2_pos q)%positive.
Proof.
  induction n as [n IH|n IH|]; intros mrs q Hm Hd; cbn [SpecFloat.iter_pos].
  - destruct (shr_1_digits mrs q Hm) as (q0 & H0 & D0); [lia|].
    destruct (IH _ _ H0) as (q1 & H1 & D1); [lia|].
    destruct (IH _ _ H1) as (q2 & H2 & D2); [lia|].
    exists q2. split; [done|lia].
  - destruct (IH _ _ Hm) as (q1 & H1 & D1); [lia|].
    destruct (IH _ _ H1) as (q2 & H2 & D2); [lia|].
    exists q2. split; [done|lia].
  - by apply shr_1_digits.
Qed.

Lemma shr_record_of_loc_m (m : Z) (l : location) :
  shr_m (shr_record_of_loc m l) = m.
Proof. by destruct l as [|[]]. Qed.

(** Rounding a positive mantissa to the format keeps it positive. *)
Lemma shr_fexp_positive (q : positive) (e : Z) (l : location) :
  -1074 <= e ->
  exists q', shr_m (fst (shr_fexp F64.prec F64.emax (Zpos q) e l)) = Zpos q' /\
             -1074 <= snd (shr_fexp F64.prec F64.emax (Zpos q) e l).
Proof.
  intros He. unfold shr_fexp, shr, fexp, emin, F64.prec, F64.emax.
  cbn [Zdigits2].
  destruct (Z.max _ _ - e) as [|n|n] eqn:En; cbn [fst snd].
  - exists q. by rewrite shr_record_of_loc_m.
  - destruct (iter_shr_1_digits n (shr_record_of_loc (Zpos q) l) q)
      as (q' & Hq' & _); [apply shr_record_of_loc_m|lia|].
    exists q'. split; [done|lia].
  - exists q. by rewrite shr_record_of_loc_m.
Qed.

Lemma round_nearest_even_positive (q : positive) (l : location) :
  exists q', round_nearest_even (Zpos q) l = Zpos q'.
Proof.
  destruct l as [|[]]; cbn [round_nearest_even].
  - by exists q.
  - destruct (Z.even (Z.pos q)); [by exists q|by exists (q + 1)%positive].
  - by exists q.
  - by exists (q + 1)%positive.
Qed.

Lemma binary_round_aux_not_zero (s : bool) (q : positive) (e : Z) (l : location) :
  -1074 <= e ->
  F64.is_zero (binary_round_aux F64.prec F64.emax s (Zpos q) e l) = false.
Proof.
  intros He. unfold binary_round_aux.
  destruct (shr_fexp_positive q e l He) as (q1 & H1 & E1).
  destruct (shr_fexp F64.prec F64.emax (Z.pos q) e l) as [mrs1 e1].
  cbn [fst snd] in *. rewrite H1.
  destruct (round_nearest_even_positive q1 (loc_of_shr_record mrs1)) as (q2 & ->).
  destruct (shr_fexp_positive q2 e1 loc_Exact E1) as (q3 & H3 & _).
  destruct (shr_fexp F64.prec F64.emax (Z.pos q2) e1 loc_Exact) as [mrs3 e3].
  cbn [fst] in H3. rewrite H3. by destruct (_ <=? _).
Qed.

Lemma of_Z_not_zero (n : Z) : n <> 0 -> F64.is_zero (F64.of_Z n) = false.
Proof.
  intros Hn. unfold F64.of_Z, binary_normalize.
  destruct n as [|p|p]; [done| |];
    unfold binary_round, shl_align, fexp, emin, F64.prec, F64.emax;
    (destruct (Z.max _ _ - 0) as [|k|k] eqn:Ek;
     apply binary_round_aux_not_zero; lia).
Qed.

(** ** The sample store, continued *)

(** X1. A call of [save_energy_data] that reports an error, for whatever
    reason other than [json.dump] failing after the file was opened for
    writing, leaves the file exactly as it was. *)
Theorem failed_save_keeps_file (f : File) (c : SaveCall) :
  snd (save_call f c) <> Ok tt ->
  call_write c <> DumpFails ->
  fst (save_call f c) = f.
Proof.
  unfold save_call, save_energy_data. intros Hs Hw.
  destruct (_ ≫= _) as [l|e]; [|done].
  destruct (call_write c); simpl in *; done.
Qed.

Lemma failed_save_keeps_file_witness :
  fst (save_call three_samples failing_open_call) = three_samples.
Proof.
  apply (failed_save_keeps_file three_samples failing_open_call).
  - vm_compute. discriminate.
  - vm_compute. discriminate.
Defined.

(** X2. A file that cannot be read is never repaired: every call of
    [save_energy_data] on it reports the read error and leaves it as it
    is, so no sequence of calls makes it readable again. *)
Theorem unreadable_file_stays_unreadable :
  (forall c, save_call Unreadable c = (Unreadable, Raise OSError)) /\
  (forall calls, run_saves calls Unreadable = Unreadable).
Proof.
  split; [done|]. induction calls as [|c calls IH]; [done|]. exact IH.
Qed.

(** X3. After a successful call the file holds, in their old order, the
    old entries stamped after the cutoff (the second clock reading minus
    30 days), followed by the new entry if it is itself stamped after the
    cutoff. The comparison is strict: an entry exactly 30 days old is
    dropped. The file grows by at most one entry. *)
Theorem successful_save_contents (l : list Entry) (c : SaveCall) (f' : File) :
  save_call (Contents l) c = (f', Ok tt) ->
  exists e,
    make_entry (call_data c) (call_now1 c) = Ok e /\
    f' = Contents (filter (fun x => call_cutoff c < timestamp x) l
                   ++ (if decide (call_cutoff c < call_now1 c) then [e] else [])) /\
    (forall l', f' = Contents l' ->
       (length l' <= S (length l))%nat /\
       Forall (fun x => timestamp x <> call_cutoff c) l').
Proof.
  unfold save_call, save_energy_data, call_cutoff. cbn [load mbind result_bind].
  destruct (make_entry _ _) as [e|] eqn:He; [|discriminate].
  cbn [mbind result_bind].
  destruct (DT.sub_days _ _) as [cutoff|] eqn:Hc; [|discriminate].
  apply sub_days_Ok in Hc as ->. cbn [mbind result_bind].
  destruct (call_write c); simpl; intros [= <-].
  apply make_entry_timestamp in He as Ht.
  exists e. rewrite filter_app, filter_cons, filter_nil, Ht.
  split_and!; [done|done|]. intros l' [= <-]. split.
  - rewrite length_app. pose proof (length_filter
      (fun x => call_now2 c - retention_days * DT.us_per_day < timestamp x) l).
    case_decide; simpl; lia.
  - apply Forall_app. split.
    + eapply Forall_impl; [apply Forall_filter_holds|]. simpl. lia.
    + case_decide; repeat constructor. lia.
Qed.

Lemma successful_save_contents_witness :
  exists e,
    make_entry (call_data april_call) (call_now1 april_call) = Ok e /\
    fst (save_call (Contents [reading noon 100]) april_call)
    = Contents (filter (fun x => call_cutoff april_call < timestamp x)
                       [reading noon 100]
                ++ (if decide (call_cutoff april_call < call_now1 april_call)
                    then [e] else [])) /\
    (forall l', fst (save_call (Contents [reading noon 100]) april_call)
                = Contents l' ->
       (length l' <= S (length [reading noon 100]))%nat /\
       Forall (fun x => timestamp x <> call_cutoff april_call) l').
Proof.
  apply (successful_save_contents [reading noon 100] april_call).
  vm_compute. reflexivity.
Defined.

(** A successful call, taken apart. *)
Lemma save_call_success_entry f c f' :
  save_call f c = (f', Ok tt) ->
  exists l e,
    f = Contents l /\ make_entry (call_data c) (call_now1 c) = Ok e /\
    f' = Contents (filter (fun x => call_cutoff c < timestamp x) (l ++ [e])).
Proof.
  unfold save_call, save_energy_data, call_cutoff.
  destruct f as [|l]; [discriminate|]. cbn [load mbind result_bind].
  destruct (make_entry _ _) as [e|] eqn:He; [|discriminate].
  cbn [mbind result_bind].
  destruct (DT.sub_days _ _) as [cutoff|] eqn:Hc; [|discriminate].
  apply sub_days_Ok in Hc as ->. cbn [mbind result_bind].
  destruct (call_write c); simpl; intros [= <-]. by exists l, e.
Qed.

(** ** The dashboard *)

(** X4. Whatever was saved last is what the dashboard shows: after a
    successful call of [save_energy_data] whose two clock readings are
    less than 30 days apart, [index] renders the telemetry of the entry
    just built from the device data, and does so without reading the
    device or touching the cache. *)
Theorem saved_sample_is_shown (f f' : File) (c : SaveCall)
    (device : option StatusReply) (cache : Cache) :
  save_call f c = (f', Ok tt) ->
  call_now2 c < call_now1 c + retention_days * DT.us_per_day ->
  exists e,
    make_entry (call_data c) (call_now1 c) = Ok e /\
    index device cache f' = (dashboard_of_entry (data e), cache).
Proof.
  intros (l & e & -> & He & ->)%save_call_success_entry Hc.
  exists e. split; [done|].
  apply make_entry_timestamp in He as Ht.
  unfold index. cbn [load].
  rewrite filter_app, filter_cons, filter_nil, decide_True
    by (rewrite Ht; unfold call_cutoff; lia).
  by rewrite last_snoc.
Qed.

Lemma saved_sample_is_shown_witness :
  exists e,
    make_entry (call_data april_call) (call_now1 april_call) = Ok e /\
    index (replies dps_a) empty_cache (fst (save_call three_samples april_call))
    = (dashboard_of_entry (data e), empty_cache).
Proof.
  apply (saved_sample_is_shown three_samples _ april_call).
  - vm_compute. reflexivity.
  - vm_compute. reflexivity.
Defined.

(** X5. [index] consults the device cache only when the file is readable
    and holds no entry: in every other case the cache is returned as it
    was. *)
Theorem index_reads_cache_only_on_empty_store
    (device : option StatusReply) (c : Cache) (f : File) :
  snd (index device c f) <> c -> f = Contents [].
Proof.
  unfold index. destruct f as [|l]; [done|]. cbn [load].
  destruct l as [|x l] using rev_ind; [done|].
  by rewrite last_snoc.
Qed.

Lemma index_reads_cache_only_on_empty_store_witness :
  Contents [] = Contents [].
Proof.
  apply (index_reads_cache_only_on_empty_store (replies dps_a) empty_cache).
  vm_compute. discriminate.
Defined.

(** X6. With an empty store, an empty cache slot and a device read that
    fails, the dashboard shows the device as off with zero readings; with
    a file that cannot be read it shows zeros and no on/off state, and
    the device is not consulted. *)
Theorem dashboard_without_data (device : option StatusReply) (c : Cache) :
  slot c = None ->
  read_fails device = true ->
  fst (index device c (Contents [])) = zero_dashboard /\
  slot (snd (index device c (Contents []))) = Some ∅ /\
  index device c Unreadable = (blank_dashboard, c).
Proof.
  intros Hs Hf. unfold index, get_cached_device_status. cbn [load last].
  rewrite Hs. destruct device as [[| |[dps|]]|]; try discriminate; done.
Qed.

Lemma dashboard_without_data_witness :
  fst (index (Some StatusRaises) empty_cache (Contents [])) = zero_dashboard /\
  slot (snd (index (Some StatusRaises) empty_cache (Contents []))) = Some ∅ /\
  index (Some StatusRaises) empty_cache Unreadable = (blank_dashboard, empty_cache).
Proof.
  apply (dashboard_without_data (Some StatusRaises) empty_cache); reflexivity.
Defined.

(** ** Live data *)

Lemma div_int_nonzero (x : float) (n : Z) :
  n <> 0 -> F64.div_int x n = Ok (F64.div x (F64.of_Z n)).
Proof.
  intros Hn. unfold F64.div_int, F64.truediv. by rewrite of_Z_not_zero.
Qed.

(** X7. When the slot is empty and the device read fails, [/live_data]
    answers 200 with is_on false and every reading 0.0, as it would for a
    device that is switched off; the failure is not reported. *)
Theorem live_data_on_failed_read (device : option StatusReply) (c : Cache) :
  slot c = None ->
  read_fails device = true ->
  fst (live_data device c) = LiveOk zero_live.
Proof.
  intros Hs Hf. unfold live_data, get_cached_device_status. rewrite Hs.
  destruct device as [[| |[dps|]]|]; try discriminate; done.
Qed.

Lemma live_data_on_failed_read_witness :
  fst (live_data (Some StatusRaises) cleared_after_good_read) = LiveOk zero_live.
Proof.
  apply (live_data_on_failed_read (Some StatusRaises) cleared_after_good_read);
    reflexivity.
Defined.

(** ** The polling loop *)

Lemma get_after_clear (device : option StatusReply) (c : Cache) :
  fst (get_cached_device_status device (cache_clear c))
  = device_status_body device /\
  slot (snd (get_cached_device_status device (cache_clear c)))
  = Some (device_status_body device).
Proof. done. Qed.

(** X8. An iteration of the polling loop in which the device gives no
    data (no device, a failed read, or an empty [dps]) writes nothing and
    does not reset the timer, so the next iteration tries again. If a save
    was due, the empty result stays in the cache, and [/live_data] keeps
    answering with zero readings, without reading the device, whatever
    the device would now reply. *)
Theorem poll_without_data (i : MonitorInputs) (st : MonitorState) :
  device_status_body (mon_device i) = ∅ ->
  mon_file (monitor_iteration i st) = mon_file st /\
  last_save_time (monitor_iteration i st) = last_save_time st /\
  mon_cache (monitor_iteration i st)
  = (if save_due i st then emptied_cache (mon_device i) (mon_cache st)
     else mon_cache st) /\
  (forall device,
     live_data device (emptied_cache (mon_device i) (mon_cache st))
     = (LiveOk zero_live, emptied_cache (mon_device i) (mon_cache st))).
Proof.
  intros Hb. unfold monitor_iteration, save_due, emptied_cache.
  destruct (get_after_clear (mon_device i) (mon_cache st)) as [Hv Hs].
  destruct (get_cached_device_status _ (cache_clear _)) as [v c'].
  cbn [fst snd] in *. rewrite Hb in *. subst v.
  split_and!.
  - by destruct (float_ge _ _).
  - by destruct (float_ge _ _).
  - by destruct (float_ge _ _).
  - intros device. unfold live_data, get_cached_device_status. by rewrite Hs.
Qed.

Lemma poll_without_data_witness :
  mon_file (monitor_iteration dead_device_iteration (monitor_at_1000 three_samples))
  = mon_file (monitor_at_1000 three_samples) /\
  last_save_time (monitor_iteration dead_device_iteration (monitor_at_1000 three_samples))
  = last_save_time (monitor_at_1000 three_samples) /\
  mon_cache (monitor_iteration dead_device_iteration (monitor_at_1000 three_samples))
  = (if save_due dead_device_iteration (monitor_at_1000 three_samples)
     then emptied_cache (mon_device dead_device_iteration)
            (mon_cache (monitor_at_1000 three_samples))
     else mon_cache (monitor_at_1000 three_samples)) /\
  (forall device,
     live_data device (emptied_cache (mon_device dead_device_iteration)
                         (mon_cache (monitor_at_1000 three_samples)))
     = (LiveOk zero_live,
        emptied_cache (mon_device dead_device_iteration)
          (mon_cache (monitor_at_1000 three_samples)))).
Proof.
  apply (poll_without_data dead_device_iteration (monitor_at_1000 three_samples)).
  reflexivity.
Defined.

Lemma monitor_iteration_reachable t i st :
  reachable t (mon_file st) ->
  t <= mon_now1 i -> mon_now1 i <= mon_now2 i ->
  reachable (mon_now2 i) (mon_file (monitor_iteration i st)).
Proof.
  intros Hr H1 H2. unfold monitor_iteration.
  assert (Hidle : reachable (mon_now2 i) (mon_file st))
    by (eapply reach_tick; [exact Hr|lia]).
  destruct (float_ge _ _); [|done].
  destruct (get_cached_device_status _ _) as [d c'].
  case_decide; [done|]. cbn [mon_file].
  exact (reach_save t (mon_file st)
           {| call_data := d; call_now1 := mon_now1 i; call_now2 := mon_now2 i;
              call_write := mon_write i |} Hr H1 H2).
Qed.

(** X9. The polling loop keeps the file in time order: started on a
    store reached from the empty file, and run for any number of
    iterations with a clock that never goes back, it leaves a file whose
    entries, if it can be read, are in non-decreasing order of
    timestamp. *)
Theorem polling_keeps_time_order
    (t : datetime) (inputs : list MonitorInputs) (st : MonitorState)
    (l : list Entry) :
  reachable t (mon_file st) ->
  clock_never_goes_back t inputs ->
  load (mon_file (run_monitor inputs st)) = Ok l ->
  time_ordered l.
Proof.
  intros Hr Hc Hl.
  assert (exists t', reachable t' (mon_file (run_monitor inputs st))) as [t' Hr'].
  { clear Hl. revert t st Hr Hc.
    induction inputs as [|i inputs IH]; intros t st Hr Hc; [by exists t|].
    destruct Hc as (H1 & H2 & Hc). cbn [run_monitor fold_left].
    apply (IH (mon_now2 i)); [|done]. by apply (monitor_iteration_reachable t). }
  apply reachable_store_inv in Hr'.
  destruct (mon_file (run_monitor inputs st)); simplify_eq/=. by destruct Hr'.
Qed.

Lemma polling_keeps_time_order_witness :
  time_ordered
    (default [] (match load (mon_file (run_monitor [live_device_iteration]
                                         (monitor_at_1000 (Contents []))))
                 with Ok l => Some l | Raise _ => None end)).
Proof.
  apply (polling_keeps_time_order noon [live_device_iteration]
           (monitor_at_1000 (Contents []))).
  - apply reach_init.
  - cbn [clock_never_goes_back].
    split_and!; [vm_compute; discriminate|vm_compute; discriminate|exact I].
  - vm_compute. reflexivity.
Defined.

Lemma save_failure_unchanged data now1 now2 w f :
  snd (save_energy_data data now1 now2 w f) <> Ok tt ->
  w <> DumpFails ->
  fst (save_energy_data data now1 now2 w f) = f.
Proof.
  unfold save_energy_data. intros Hs Hw.
  destruct (_ ≫= _) as [l|e]; [|done]. destruct w; simpl in *; done.
Qed.

(** X10. When a save is due and the device gives data, the timer is
    reset even if [save_energy_data] failed: the sample is dropped, the
    file stays as it was (unless [json.dump] failed after truncating it),
    and the next attempt waits a full interval. *)
Theorem failed_save_still_resets_timer (i : MonitorInputs) (st : MonitorState) :
  save_due i st = true ->
  device_status_body (mon_device i) <> ∅ ->
  snd (save_energy_data (device_status_body (mon_device i)) (mon_now1 i)
         (mon_now2 i) (mon_write i) (mon_file st)) <> Ok tt ->
  mon_write i <> DumpFails ->
  last_save_time (monitor_iteration i st) = time_saved i /\
  mon_file (monitor_iteration i st) = mon_file st.
Proof.
  intros Hd Hb Hs Hw. unfold monitor_iteration. unfold save_due in Hd.
  rewrite Hd.
  destruct (get_after_clear (mon_device i) (mon_cache st)) as [Hv _].
  destruct (get_cached_device_status _ (cache_clear _)) as [v c'].
  cbn [fst] in Hv. subst v. rewrite decide_False by done.
  split; [done|]. cbn [mon_file]. by apply save_failure_unchanged.
Qed.

Lemma failed_save_still_resets_timer_witness :
  last_save_time (monitor_iteration live_device_iteration (monitor_at_1000 Unreadable))
  = time_saved live_device_iteration /\
  mon_file (monitor_iteration live_device_iteration (monitor_at_1000 Unreadable))
  = mon_file (monitor_at_1000 Unreadable).
Proof.
  apply (failed_save_still_resets_timer live_device_iteration
           (monitor_at_1000 Unreadable)).
  - vm_compute. reflexivity.
  - intros H. apply (f_equal (fun m : Dps => dps_get m "19")) in H.
    vm_compute in H. discriminate.
  - vm_compute. discriminate.
  - vm_compute. discriminate.
Defined.

(** ** Switching the device *)

(** X11. After a switch command that the device accepted, the next call
    of [get_cached_device_status] returns what the device replies now,
    whatever was cached, and the command is the last one sent. When there
    is no device, or [set_status] raises, nothing is sent and the cache is
    not cleared: a cached value is still returned. *)
Theorem switch_then_get (on : bool) (outcome : option SetStatusOutcome)
    (st : SwitchState) (device : option StatusReply) (v : Dps) :
  slot (sw_cache st) = Some v ->
  match outcome with
  | Some SetDone =>
      fst (get_cached_device_status device
             (sw_cache (fst (switch on outcome st))))
      = device_status_body device /\
      sw_sent (fst (switch on outcome st)) = sw_sent st ++ [on]
  | _ =>
      fst (get_cached_device_status device
             (sw_cache (fst (switch on outcome st)))) = v /\
      fst (switch on outcome st) = st
  end.
Proof.
  intros Hs. destruct outcome as [[|]|]; cbn [switch fst]; [done| |];
    unfold get_cached_device_status; by rewrite Hs.
Qed.

Lemma switch_then_get_witness :
  fst (get_cached_device_status (replies dps_b)
         (sw_cache (fst (turn_on (Some SetDone)
                           {| sw_cache := snd (get_cached_device_status
                                                 (replies dps_a) empty_cache);
                              sw_sent := [] |}))))
  = device_status_body (replies dps_b) /\
  sw_sent (fst (turn_on (Some SetDone)
                  {| sw_cache := snd (get_cached_device_status
                                        (replies dps_a) empty_cache);
                     sw_sent := [] |})) = [] ++ [true].
Proof.
  apply (switch_then_get true (Some SetDone)
           {| sw_cache := snd (get_cached_device_status (replies dps_a) empty_cache);
              sw_sent := [] |} (replies dps_b) dps_a).
  reflexivity.
Defined.

(** ** Start-up *)

(** X12. [init_files] never touches a JSON file that exists, whether it
    succeeds or fails: restarting the program keeps the stored samples. *)
Theorem init_files_keeps_existing_file
    (makedirs_ok : bool) (w : WriteOutcome) (d : Disk) (f : File) :
  json_file d = Some f ->
  json_file (fst (init_files makedirs_ok w d)) = Some f.
Proof.
  intros Hf. unfold init_files, ensure_dir. rewrite Hf.
  by destruct (templates_dir d), (static_dir d), makedirs_ok.
Qed.

Lemma init_files_keeps_existing_file_witness :
  json_file (fst (init_files false DumpFails used_disk)) = Some three_samples.
Proof.
  apply (init_files_keeps_existing_file false DumpFails used_disk three_samples).
  reflexivity.
Defined.

(** X13. When [init_files] succeeds, both directories exist and the JSON
    file exists: it is the old file if there was one and the empty list
    otherwise. A second run then succeeds whatever the file system does
    and changes nothing. *)
Theorem init_files_success
    (makedirs_ok : bool) (w : WriteOutcome) (d : Disk) :
  snd (init_files makedirs_ok w d) = Ok tt ->
  fst (init_files makedirs_ok w d)
  = {| templates_dir := true; static_dir := true;
       json_file := Some (default (Contents []) (json_file d)) |} /\
  (forall makedirs_ok' w',
     init_files makedirs_ok' w' (fst (init_files makedirs_ok w d))
     = (fst (init_files makedirs_ok w d), Ok tt)).
Proof.
  unfold init_files, ensure_dir.
  destruct (templates_dir d), (static_dir d), makedirs_ok, (json_file d), w;
    simpl; intros H; try discriminate; done.
Qed.

Lemma init_files_success_witness :
  fst (init_files true WriteOk fresh_disk)
  = {| templates_dir := true; static_dir := true;
       json_file := Some (default (Contents []) (json_file fresh_disk)) |} /\
  (forall makedirs_ok' w',
     init_files makedirs_ok' w' (fst (init_files true WriteOk fresh_disk))
     = (fst (init_files true WriteOk fresh_disk), Ok tt)).
Proof.
  apply (init_files_success true WriteOk fresh_disk). reflexivity.
Defined.

Lemma discover_first (device_id : string) (devices : list (string * option string)) :
  (exists pre post,
     devices = pre ++ (discover device_id devices, Some device_id) :: post /\
     Forall (fun kv => snd kv <> Some device_id) pre)
  \/ (discover device_id devices = "" /\
      Forall (fun kv => snd kv <> Some device_id) devices).
Proof.
  induction devices as [|[ip gw] devices IH]; [right; by split|].
  cbn [discover]. case_decide as Hg.
  - left. exists [], devices. subst gw. by split.
  - destruct IH as [(pre & post & Hd & Hpre)|[Hn Hall]].
    + left. exists ((ip, gw) :: pre), post. split; [by rewrite Hd at 1|].
      by constructor.
    + right. split; [done|]. by constructor.
Qed.

(** X14. The device that [initialize_device] returns has a non-empty
    address. If [DEVICE_IP] is set it is that address, whatever the scan
    would do; otherwise it is the address of the first device of the scan
    whose ['gwId'] is the configured id. When the scan finds no such
    device there is no device at all. *)
Theorem initialize_device_address
    (device_id local_key device_ip : string)
    (scan : result (list (string * option string))) (version : result float)
    (device : Device) :
  initialize_device device_id local_key device_ip scan version = Some device ->
  dev_id device = device_id /\
  dev_ip device <> ""%string /\
  Ok (dev_version device) = version /\
  if decide (device_ip = ""%string) then
    exists devices pre post,
      scan = Ok devices /\
      devices = pre ++ (dev_ip device, Some device_id) :: post /\
      Forall (fun kv => snd kv <> Some device_id) pre
  else dev_ip device = device_ip.
Proof.
  unfold initialize_device.
  destruct (decide (device_ip = ""%string)) as [->|Hip].
  - destruct scan as [devices|]; [|discriminate]. cbn [mbind result_bind].
    destruct (decide (discover device_id devices = ""%string)) as [|Hne];
      [discriminate|].
    cbn [mbind result_bind]. destruct version as [v|]; [|discriminate].
    cbn [mbind result_bind]. intros [= <-]. cbn [dev_id dev_ip dev_version].
    split_and!; [done|done|done|].
    destruct (discover_first device_id devices) as [(pre & post & Hd & Hp)|[Hn _]];
      [|done].
    by exists devices, pre, post.
  - cbn [mbind result_bind]. destruct version as [v|]; [|discriminate].
    cbn [mbind result_bind]. by intros [= <-].
Qed.

Lemma initialize_device_address_witness :
  dev_id {| dev_id := "bf493814f4d1067dcbqvx5"; dev_ip := "192.168.1.12";
            dev_key := "key"; dev_version := F64.dec 35 1 |}
  = "bf493814f4d1067dcbqvx5"%string /\
  dev_ip {| dev_id := "bf493814f4d1067dcbqvx5"; dev_ip := "192.168.1.12";
            dev_key := "key"; dev_version := F64.dec 35 1 |} <> ""%string /\
  Ok (dev_version {| dev_id := "bf493814f4d1067dcbqvx5"; dev_ip := "192.168.1.12";
                     dev_key := "key"; dev_version := F64.dec 35 1 |})
  = Ok (F64.dec 35 1) /\
  if decide (""%string = ""%string) then
    exists devices pre post,
      Ok scan_result = Ok devices /\
      devices = pre ++ (dev_ip {| dev_id := "bf493814f4d1067dcbqvx5";
                                  dev_ip := "192.168.1.12"; dev_key := "key";
                                  dev_version := F64.dec 35 1 |},
                        Some "bf493814f4d1067dcbqvx5"%string) :: post /\
      Forall (fun kv => snd kv <> Some "bf493814f4d1067dcbqvx5"%string) pre
  else dev_ip {| dev_id := "bf493814f4d1067dcbqvx5"; dev_ip := "192.168.1.12";
                 dev_key := "key"; dev_version := F64.dec 35 1 |} = ""%string.
Proof.
  apply (initialize_device_address "bf493814f4d1067dcbqvx5" "key" ""
           (Ok scan_result) (Ok (F64.dec 35 1))).
  vm_compute. reflexivity.
Defined.

(** ** The history query *)

(** A bucket of the history is the bucket of the recent samples of its
    date. *)
Lemma history_bucket_inv days now f date b :
  dict_get (get_historical_data days now f) date = Some b ->
  exists all_data,
    load f = Ok all_data /\
    DT.sub_days now days = Ok (history_cutoff now days) /\
    b = bucket_of (samples_on date
                     (filter (fun e => history_cutoff now days < timestamp e)
                             all_data)).
Proof.
  intros H.
  destruct (get_historical_data_cases days now f)
    as [E|(all_data & cutoff & Hl & Hc & E)]; rewrite E in H; [done|].
  apply sub_days_Ok in Hc as Hc'. unfold history_cutoff. subst cutoff.
  rewrite group_by_day_spec in H. apply dict_get_map in H as [_ ->].
  by exists all_data.
Qed.

(** X15. Every timestamp in a bucket of the history is strictly later
    than [now] minus [days] days and falls on the bucket's date. *)
Theorem history_bucket_contents
    (days : Z) (now : datetime) (f : File) (date : string) (b : Bucket) :
  dict_get (get_historical_data days now f) date = Some b ->
  Forall (fun t => history_cutoff now days < t /\ DT.strftime_date t = date)
         (timestamps b).
Proof.
  intros (all_data & _ & _ & ->)%history_bucket_inv.
  cbn [bucket_of timestamps]. apply Forall_forall.
  intros t (e & -> & He)%list_elem_of_fmap.
  apply list_elem_of_filter in He as [Hd He].
  apply list_elem_of_filter in He as [Hc _]. done.
Qed.

Lemma history_bucket_contents_witness :
  Forall (fun t => history_cutoff one_pm 7 < t /\
                   DT.strftime_date t = "2024-03-05"%string)
         (timestamps march_5_bucket).
Proof.
  apply (history_bucket_contents 7 one_pm three_samples).
  vm_compute. reflexivity.
Defined.

Lemma bucket_total_update date e daily_data :
  bucket_total (dict_update empty_bucket date (bucket_append e) daily_data)
  = S (bucket_total daily_data).
Proof.
  induction daily_data as [|[k b] d IH]; cbn [dict_update].
  - simpl. lia.
  - case_decide; cbn [bucket_total fold_right snd bucket_append timestamps].
    + rewrite length_app. simpl. lia.
    + fold (bucket_total (dict_update empty_bucket date (bucket_append e) d)).
      fold (bucket_total d). rewrite IH. lia.
Qed.

Lemma bucket_total_group_by_day l :
  bucket_total (group_by_day l) = length l.
Proof.
  induction l as [|e l IH] using rev_ind; [done|].
  unfold group_by_day in *. rewrite fold_left_app. simpl.
  rewrite bucket_total_update, IH, length_app. simpl. lia.
Qed.

Lemma group_by_day_keys l : map fst (group_by_day l) = dates_of l.
Proof.
  rewrite group_by_day_spec, map_map. simpl. apply map_id.
Qed.

(** X16. The buckets of the history partition the recent samples: no
    date has two buckets, and together the buckets hold as many samples
    as the file has entries later than the cutoff. *)
Theorem history_buckets_partition
    (days : Z) (now : datetime) (f : File) (all_data : list Entry) :
  load f = Ok all_data ->
  DT.sub_days now days = Ok (history_cutoff now days) ->
  NoDup (map fst (get_historical_data days now f)) /\
  bucket_total (get_historical_data days now f)
  = length (filter (fun e => history_cutoff now days < timestamp e) all_data).
Proof.
  intros Hl Hc. unfold get_historical_data. rewrite Hl, Hc.
  cbn [mbind result_bind].
  rewrite group_by_day_keys, bucket_total_group_by_day.
  split; [apply NoDup_dates_of|done].
Qed.

Lemma history_buckets_partition_witness :
  NoDup (map fst (get_historical_data 7 one_pm
                    (Contents [reading noon 100; reading half_past 150;
                               reading one_pm 50]))) /\
  bucket_total (get_historical_data 7 one_pm
                  (Contents [reading noon 100; reading half_past 150;
                             reading one_pm 50]))
  = length (filter (fun e => history_cutoff one_pm 7 < timestamp e)
                   [reading noon 100; reading half_past 150; reading one_pm 50]).
Proof.
  apply (history_buckets_partition 7 one_pm
           (Contents [reading noon 100; reading half_past 150; reading one_pm 50])).
  - reflexivity.
  - vm_compute. reflexivity.
Defined.

Lemma time_ordered_stamps l :
  time_ordered l -> StronglySorted Z.le (map timestamp l).
Proof.
  unfold time_ordered. induction 1 as [|x l Hl IH Hx]; [constructor|].
  simpl. constructor; [done|]. by apply Forall_fmap.
Qed.

(** X17. On a store reached from the empty file with a clock that never
    goes back, the timestamps of every bucket of the history are in
    non-decreasing order. *)
Theorem history_buckets_in_time_order
    (t : datetime) (f : File) (days : Z) (now : datetime)
    (date : string) (b : Bucket) :
  reachable t f ->
  dict_get (get_historical_data days now f) date = Some b ->
  StronglySorted Z.le (timestamps b).
Proof.
  intros Hr (all_data & Hl & _ & ->)%history_bucket_inv.
  apply reachable_store_inv in Hr. destruct f; simplify_eq/=.
  destruct Hr as [Hs _].
  apply time_ordered_stamps. unfold samples_on.
  by do 2 apply time_ordered_filter.
Qed.

Lemma history_buckets_in_time_order_witness :
  StronglySorted Z.le (timestamps march_5_bucket).
Proof.
  apply (history_buckets_in_time_order one_pm three_samples 7 one_pm
           "2024-03-05"%string).
  - assert (H0 : reachable noon (Contents [])) by constructor.
    pose proof (reach_save noon _ (call_at noon 100) H0) as H1.
    pose proof (reach_save noon _ (call_at half_past 150)
                  (H1 ltac:(simpl; lia) ltac:(simpl; lia))) as H2.
    pose proof (reach_save half_past _ (call_at one_pm 50)
                  (H2 ltac:(vm_compute; discriminate) ltac:(simpl; lia))) as H3.
    exact (H3 ltac:(vm_compute; discriminate) ltac:(simpl; lia)).
  - vm_compute. reflexivity.
Defined.

Lemma filter_none {A} (P : A -> Prop) `{!forall x, Decision (P x)} (l : list A) :
  Forall (fun x => ~ P x) l -> filter P l = [].
Proof.
  induction 1 as [|x l Hx _ IH]; [done|]. by rewrite filter_cons_False.
Qed.

(** X18. On a store reached from the empty file, a history query over
    zero or a negative number of days, made at or after the latest clock
    reading, returns no bucket at all: the window starts at [now] or
    later and the comparison is strict. *)
Theorem history_of_no_days_is_empty
    (t : datetime) (f : File) (days : Z) (now : datetime) :
  reachable t f ->
  t <= now ->
  days <= 0 ->
  get_historical_data days now f = [].
Proof.
  intros Hr Ht Hd.
  destruct (get_historical_data_cases days now f)
    as [E|(all_data & cutoff & Hl & Hc & E)]; [done|].
  rewrite E. apply sub_days_Ok in Hc as ->.
  apply reachable_store_inv in Hr. destruct f; simplify_eq/=.
  destruct Hr as [_ Hb]. rewrite filter_none; [done|].
  eapply Forall_impl; [exact Hb|]. simpl. intros e He.
  unfold DT.us_per_day, DT.us_per_second. lia.
Qed.

Lemma history_of_no_days_is_empty_witness :
  get_historical_data 0 one_pm three_samples = [].
Proof.
  apply (history_of_no_days_is_empty one_pm three_samples 0 one_pm).
  - assert (H0 : reachable noon (Contents [])) by constructor.
    pose proof (reach_save noon _ (call_at noon 100) H0) as H1.
    pose proof (reach_save noon _ (call_at half_past 150)
                  (H1 ltac:(simpl; lia) ltac:(simpl; lia))) as H2.
    pose proof (reach_save half_past _ (call_at one_pm 50)
                  (H2 ltac:(vm_compute; discriminate) ltac:(simpl; lia))) as H3.
    exact (H3 ltac:(vm_compute; discriminate) ltac:(simpl; lia)).
  - lia.
  - lia.
Defined.

(** X19. Asking for more days than separate [now] from 0001-01-01 does
    not return the whole history: the subtraction overflows, the handler
    of [get_historical_data] returns the empty dict, and [/history]
    renders an empty page. *)
Theorem history_of_too_many_days_is_empty
    (days : Z) (now : datetime) (f : File) :
  now < days * DT.us_per_day ->
  get_historical_data days now f = [] /\
  (forall float_sum, history float_sum (DaysInt days) now f = HistoryPage []).
Proof.
  intros Hd.
  assert (Hc : DT.sub_days now days = Raise OverflowError).
  { unfold DT.sub_days, DT.in_range, DT.min_us.
    destruct (_ <=? 999999999); [|done].
    rewrite (proj2 (Z.leb_gt _ _)) by lia. done. }
  assert (H : get_historical_data days now f = []).
  { unfold get_historical_data. destruct (load f); [|done].
    cbn [mbind result_bind]. by rewrite Hc. }
  split; [done|]. intros fs. unfold history. cbn [parse_days mbind result_bind].
  by rewrite H.
Qed.

Lemma history_of_too_many_days_is_empty_witness :
  get_historical_data 800000 one_pm three_samples = [] /\
  (forall float_sum,
     history float_sum (DaysInt 800000) one_pm three_samples = HistoryPage []).
Proof.
  apply (history_of_too_many_days_is_empty 800000 one_pm three_samples).
  vm_compute. reflexivity.
Defined.

(** X20. When [analyze_data] succeeds, the analysis has one entry for
    each date whose power list is not empty, in the order of the input
    dict, and no other entry. *)
Theorem analysis_dates
    (float_sum : list float -> float) (data : list (string * Bucket))
    (analysis : list (string * DailyStats)) :
  analyze_data float_sum data = Ok analysis ->
  map fst analysis = dates_with_power data.
Proof.
  unfold dates_with_power. revert analysis.
  induction data as [|[date values] data IH]; intros analysis H.
  - by simplify_eq/=.
  - cbn [analyze_data] in H. rewrite filter_cons. cbn [snd].
    destruct (power values) as [|p ps] eqn:Hp.
    + rewrite decide_False by (by intros []). by apply IH.
    + rewrite decide_True by done. inv_bind H. inv_bind H. simplify_eq.
      cbn [map fst]. f_equal. by apply IH.
Qed.

Lemma analysis_dates_witness :
  map fst
    [("2024-03-05"%string,
      {| stats_power := {| avg := F64.of_Z 20; max := F64.of_Z 30; min := F64.of_Z 10 |};
         stats_voltage := {| avg := F64.zero; max := F64.zero; min := F64.zero |};
         stats_current := {| avg := F64.zero; max := F64.zero; min := F64.zero |} |})]
  = dates_with_power (("2024-03-04"%string, empty_bucket)
                      :: group_by_day ten_twenty_thirty).
Proof.
  apply (analysis_dates F64.sum_naive
           (("2024-03-04"%string, empty_bucket) :: group_by_day ten_twenty_thirty)).
  vm_compute. reflexivity.
Defined.

Lemma int_truediv_Raise a b e :
  b <> 0 -> F64.int_truediv a b = Raise e -> e = OverflowError.
Proof.
  intros Hb. unfold F64.int_truediv.
  rewrite (proj2 (Z.eqb_neq b 0)) by done.
  destruct (F64.ratio a b); congruence.
Qed.

Lemma len_cons_nonzero {A} (x : A) (l : list A) : len (x :: l) <> 0.
Proof. unfold len. simpl. lia. Qed.

(** The statistics of a group of samples that is not empty fail only by
    overflow. *)
Lemma day_stats_Raise float_sum (part : list Entry) e :
  part <> [] -> day_stats float_sum part = Raise e -> e = OverflowError.
Proof.
  destruct part as [|x part]; [done|]. intros _.
  unfold day_stats, float_metric, current_metric. cbn [map].
  rewrite !div_int_nonzero by apply len_cons_nonzero.
  cbn [max_float min_float max_int min_int py_extremum mbind result_bind].
  destruct (F64.int_truediv (sum_int _) _) as [m|e1] eqn:E1;
    cbn [mbind result_bind].
  2:{ intros [= <-]. eapply int_truediv_Raise; [|exact E1].
      apply len_cons_nonzero. }
  rewrite div_int_nonzero by done. cbn [mbind result_bind].
  repeat match goal with
  | |- context [F64.int_truediv ?a 1000] =>
      let E := fresh "E" in destruct (F64.int_truediv a 1000) eqn:E
  end; cbn [mbind result_bind]; intros Hr; try discriminate;
    injection Hr as <-; (eapply int_truediv_Raise; [|eassumption]; done).
Qed.

Lemma traverse_Raise {A B} (F : A -> result B) (l : list A) e :
  traverse F l = Raise e -> exists x, x ∈ l /\ F x = Raise e.
Proof.
  induction l as [|x l IH]; [done|]. cbn [traverse].
  destruct (F x) as [y|e'] eqn:E; cbn [mbind result_bind].
  - destruct (traverse F l) as [ys|e'']; cbn [mbind result_bind]; [done|].
    intros [= ->]. destruct IH as (x' & Hx' & HF); [done|].
    exists x'. split; [by right|done].
  - intros [= ->]. exists x. split; [by left|done].
Qed.

(** X21. With stored current readings that are ints, the aggregation of
    the buckets built by [get_historical_data] never divides by zero and
    never takes the maximum or minimum of an empty list, whatever the file
    holds and whatever the window: if [analyze_data] raises there, it is an
    overflow, and some date of the window has samples whose statistics
    overflow the float range. *)
Theorem history_aggregation_errors
    (float_sum : list float -> float) (days : Z) (now : datetime)
    (f : File) (e : exn) :
  analyze_data float_sum (get_historical_data days now f) = Raise e ->
  e = OverflowError /\
  exists all_data date,
    load f = Ok all_data /\
    samples_on date (filter (fun x => history_cutoff now days < timestamp x)
                            all_data) <> [] /\
    day_stats float_sum
      (samples_on date (filter (fun x => history_cutoff now days < timestamp x)
                               all_data))
    = Raise OverflowError.
Proof.
  intros Ha.
  destruct (get_historical_data_cases days now f)
    as [E|(all_data & cutoff & Hl & Hc & E)]; rewrite E in Ha; [done|].
  apply sub_days_Ok in Hc. unfold history_cutoff. subst cutoff.
  rewrite group_by_day_spec in Ha.
  rewrite analyze_data_buckets in Ha by (intros d; by rewrite elem_of_dates_of).
  apply traverse_Raise in Ha as (d & Hd & Ha).
  apply elem_of_dates_of in Hd.
  destruct (day_stats _ _) as [st|e'] eqn:Es; [done|].
  cbn [mbind result_bind] in Ha. injection Ha as ->.
  apply day_stats_Raise in Es as He; [|done]. subst e.
  split; [done|]. by exists all_data, d.
Qed.

Lemma history_aggregation_errors_witness :
  OverflowError = OverflowError /\
  exists all_data date,
    load (Contents [reading noon 100; huge_current_entry]) = Ok all_data /\
    samples_on date (filter (fun x => history_cutoff one_pm 7 < timestamp x)
                            all_data) <> [] /\
    day_stats F64.sum_naive
      (samples_on date (filter (fun x => history_cutoff one_pm 7 < timestamp x)
                               all_data))
    = Raise OverflowError.
Proof.
  apply (history_aggregation_errors F64.sum_naive 7 one_pm
           (Contents [reading noon 100; huge_current_entry]) OverflowError).
  vm_compute. reflexivity.
Defined.

(** ** The day-detail route, continued *)

Lemma selected_is_samples_on date l :
  filter (fun entry => Some (entry_date entry) = Some date) l = samples_on date l.
Proof. unfold samples_on. apply list_filter_iff. intros e. naive_solver. Qed.

Lemma samples_on_idem date l :
  samples_on date (samples_on date l) = samples_on date l.
Proof.
  unfold samples_on. rewrite list_filter_filter. apply list_filter_iff.
  intros e. split; [by intros [? _]|by intros ?].
Qed.

Lemma traverse_length {A B} (F : A -> result B) (l : list A) (ys : list B) :
  traverse F l = Ok ys -> length ys = length l.
Proof.
  revert ys. induction l as [|x l IH]; intros ys H; [by simplify_eq/=|].
  cbn [traverse] in H. inv_bind H. inv_bind H. simplify_eq. simpl.
  f_equal. by apply IH.
Qed.

(** X22. The day detail depends only on the samples of the requested
    date: entries of other dates change nothing. When the route succeeds,
    its four series have one element per sample of that date, in file
    order, and the total is the integral over exactly those samples. *)
Theorem day_detail_is_local (date : string) (l : list Entry) (d : DayDetail) :
  historical_data (Some date) (Contents l) = DetailOk d ->
  historical_data (Some date) (Contents (samples_on date l)) = DetailOk d /\
  samples_on date l <> [] /\
  detail_timestamps d
  = map (fun e => DT.strftime_hm (timestamp e)) (samples_on date l) /\
  detail_power d = map (fun e => power_w (data e)) (samples_on date l) /\
  detail_voltage d = map (fun e => voltage_v (data e)) (samples_on date l) /\
  length (detail_current d) = length (samples_on date l) /\
  detail_total_kwh d = integrate (samples_on date l).
Proof.
  unfold historical_data. cbn [load].
  rewrite !selected_is_samples_on, samples_on_idem.
  destruct (samples_on date l) as [|x part] eqn:Hp; [discriminate|].
  destruct (traverse _ _) as [cs|] eqn:Hc; [|discriminate].
  intros [= <-]. cbn [detail_timestamps detail_power detail_voltage
                      detail_current detail_total_kwh].
  split_and!; try done. by apply traverse_length in Hc.
Qed.

Lemma day_detail_is_local_witness :
  exists d,
    historical_data (Some "2024-03-05"%string)
      (Contents (samples_on "2024-03-05"
                   [reading noon 100; reading (noon + minutes (24 * 60)) 70;
                    reading one_pm 50])) = DetailOk d /\
    samples_on "2024-03-05"
      [reading noon 100; reading (noon + minutes (24 * 60)) 70; reading one_pm 50]
    <> [] /\
    detail_timestamps d
    = map (fun e => DT.strftime_hm (timestamp e))
          (samples_on "2024-03-05"
             [reading noon 100; reading (noon + minutes (24 * 60)) 70;
              reading one_pm 50]) /\
    detail_power d
    = map (fun e => power_w (data e))
          (samples_on "2024-03-05"
             [reading noon 100; reading (noon + minutes (24 * 60)) 70;
              reading one_pm 50]) /\
    detail_voltage d
    = map (fun e => voltage_v (data e))
          (samples_on "2024-03-05"
             [reading noon 100; reading (noon + minutes (24 * 60)) 70;
              reading one_pm 50]) /\
    length (detail_current d)
    = length (samples_on "2024-03-05"
                [reading noon 100; reading (noon + minutes (24 * 60)) 70;
                 reading one_pm 50]) /\
    detail_total_kwh d
    = integrate (samples_on "2024-03-05"
                   [reading noon 100; reading (noon + minutes (24 * 60)) 70;
                    reading one_pm 50]).
Proof.
  eexists.
  apply (day_detail_is_local "2024-03-05"
           [reading noon 100; reading (noon + minutes (24 * 60)) 70;
            reading one_pm 50]).
  vm_compute. reflexivity.
Defined.

Lemma integrate_loop_shift delta l total previous :
  fold_left integrate_step (map (shift_time delta) l)
            (total, shift_previous delta previous)
  = (fst (fold_left integrate_step l (total, previous)),
     shift_previous delta (snd (fold_left integrate_step l (total, previous)))).
Proof.
  revert total previous. induction l as [|e l IH]; intros total previous; [done|].
  cbn [map fold_left].
  replace (integrate_step (total, shift_previous delta previous) (shift_time delta e))
    with (fst (integrate_step (total, previous) e),
          shift_previous delta (snd (integrate_step (total, previous) e))).
  - destruct (integrate_step (total, previous) e) as [total' previous'].
    apply IH.
  - destruct previous as [[pt pp]|]; cbn; [|done].
    unfold DT.total_seconds_between.
    by replace (timestamp e + delta - (pt + delta)) with (timestamp e - pt) by lia.
Qed.

(** X23. The energy of a run of samples depends on the differences
    between their times only: moving every sample by the same amount of
    time leaves the result unchanged. *)
Theorem integrate_shift_invariant (delta : Z) (l : list Entry) :
  integrate (map (shift_time delta) l) = integrate l.
Proof.
  rewrite !integrate_unfold.
  change (F64.zero, None) with (F64.zero, shift_previous delta None) at 1.
  by rewrite integrate_loop_shift.
Qed.

Lemma time_ordered_pairs l :
  time_ordered l ->
  Forall (fun p => timestamp (fst p) <= timestamp (snd p)) (adjacent_pairs l).
Proof.
  unfold time_ordered. induction 1 as [|a l Hl IH Ha]; [constructor|].
  destruct l as [|b l]; [constructor|]. cbn [adjacent_pairs].
  constructor; [|done]. cbn [fst snd]. by inversion Ha.
Qed.

(** X24. On a store reached from the empty file with a clock that never
    goes back, the samples that the day detail integrates over are in
    time order: no trapezoid has a negative duration. *)
Theorem day_detail_durations_not_negative
    (t : datetime) (f : File) (l : list Entry) (date : string) :
  reachable t f ->
  load f = Ok l ->
  Forall (fun p => timestamp (fst p) <= timestamp (snd p))
         (adjacent_pairs (samples_on date l)).
Proof.
  intros Hr Hl. apply reachable_store_inv in Hr. destruct f; simplify_eq/=.
  destruct Hr as [Hs _]. apply time_ordered_pairs.
  by apply time_ordered_filter.
Qed.

Lemma day_detail_durations_not_negative_witness :
  Forall (fun p => timestamp (fst p) <= timestamp (snd p))
         (adjacent_pairs
            (samples_on "2024-03-05"
               (match three_samples with Contents l => l | Unreadable => [] end))).
Proof.
  apply (day_detail_durations_not_negative one_pm three_samples).
  - assert (H0 : reachable noon (Contents [])) by constructor.
    pose proof (reach_save noon _ (call_at noon 100) H0) as H1.
    pose proof (reach_save noon _ (call_at half_past 150)
                  (H1 ltac:(simpl; lia) ltac:(simpl; lia))) as H2.
    pose proof (reach_save half_past _ (call_at one_pm 50)
                  (H2 ltac:(vm_compute; discriminate) ltac:(simpl; lia))) as H3.
    exact (H3 ltac:(vm_compute; discriminate) ltac:(simpl; lia)).
  - vm_compute. reflexivity.
Defined.

(** X25. The day-detail route answers 404 exactly when the file can be
    read and no entry falls on the requested date; a request without a
    [date] parameter is such a case whenever the file can be read. *)
Theorem day_detail_not_found_iff (date : option string) (f : File) :
  historical_data date f = DetailNotFound <->
  exists l, f = Contents l /\ Forall (fun e => Some (entry_date e) <> date) l.
Proof.
  unfold historical_data. destruct f as [|l]; cbn [load].
  - split; [done|]. by intros (l & ? & _).
  - split.
    + intros H. exists l. split; [done|].
      apply Forall_forall. intros e He Hd.
      destruct (filter _ l) as [|x part] eqn:Hf.
      * by apply (filter_nil_not_elem_of _ l e Hf Hd).
      * by destruct (traverse _ _).
    + intros (l' & [= <-] & Hall). by rewrite filter_none.
Qed.

(** X26. On a file that can be read and whose current readings are
    ints, the day-detail route answers 500 in one case only: a current
    reading of the requested date is too large for its division by 1000 to
    be a float. *)
Theorem day_detail_errors (date : option string) (l : list Entry) (e : exn) :
  historical_data date (Contents l) = DetailError e ->
  e = OverflowError /\
  exists x,
    x ∈ l /\ Some (entry_date x) = date /\
    F64.int_truediv (current_ma (data x)) 1000 = Raise OverflowError.
Proof.
  unfold historical_data. cbn [load].
  destruct (filter _ l) as [|x part] eqn:Hf; [discriminate|].
  destruct (traverse _ _) as [cs|e'] eqn:Hc; [discriminate|].
  intros [= ->].
  apply traverse_Raise in Hc as (y & Hy & Hr).
  rewrite <- Hf in Hy. apply list_elem_of_filter in Hy as [Hd Hy].
  apply int_truediv_Raise in Hr as He; [|done]. subst e.
  split; [done|]. by exists y.
Qed.

Lemma day_detail_errors_witness :
  OverflowError = OverflowError /\
  exists x,
    x ∈ [reading noon 100; huge_current_entry] /\
    Some (entry_date x) = Some "2024-03-05"%string /\
    F64.int_truediv (current_ma (data x)) 1000 = Raise OverflowError.
Proof.
  apply (day_detail_errors (Some "2024-03-05"%string)
           [reading noon 100; huge_current_entry] OverflowError).
  vm_compute. reflexivity.
Defined.

(** ** The memoised device read, continued *)

Lemma run_op_reads (ops : list CacheOp) :
  forall (c : Cache) (evs : list GetEvent),
    (device_reads (fst (fold_left run_op ops (c, evs)))
     <= device_reads c + count_clears ops
        + match slot c with Some _ => 0 | None => 1 end)%nat.
Proof.
  induction ops as [|op ops IH]; intros c evs.
  - simpl. lia.
  - cbn [fold_left]. destruct op as [t device|].
    + cbn [run_op count_clears]. unfold get_cached_device_status.
      destruct (slot c) as [v|] eqn:Hs.
      * etransitivity; [apply IH|]. rewrite Hs. lia.
      * etransitivity; [apply IH|]. cbn [slot device_reads].
        destruct device; lia.
    + cbn [run_op count_clears]. etransitivity; [apply IH|].
      cbn [cache_clear slot device_reads]. destruct (slot c); lia.
Qed.

(** X27. In a history of calls made one after the other (no two calls
    of [get_cached_device_status] overlapping), however many times the
    function is called, the device is read at most once more than the
    cache has been cleared. *)
Theorem device_reads_bounded_by_clears (ops : list CacheOp) :
  (device_reads (fst (run_cache ops)) <= S (count_clears ops))%nat.
Proof.
  unfold run_cache. etransitivity; [apply run_op_reads|].
  cbn [empty_cache slot device_reads]. lia.
Qed.

(** The events of a history are appended to those already recorded. *)
Lemma run_op_events (ops : list CacheOp) :
  forall (c : Cache) (evs : list GetEvent),
    fold_left run_op ops (c, evs)
    = (fst (fold_left run_op ops (c, [])),
       evs ++ snd (fold_left run_op ops (c, []))).
Proof.
  induction ops as [|op ops IH]; intros c evs.
  - cbn. by rewrite app_nil_r.
  - cbn [fold_left]. destruct op as [t device|]; cbn [run_op].
    + destruct (get_cached_device_status device c) as [v c'].
      rewrite (IH c' (evs ++ _)), (IH c' ([] ++ _)). cbn [fst snd].
      by rewrite <- app_assoc.
    + apply IH.
Qed.

Lemma gets_on_filled_slot (v : Dps) (calls : list (Z * option StatusReply))
    (c : Cache) :
  slot c = Some v ->
  fold_left run_op (gets calls) (c, [])
  = (c, map (fun p => {| ev_time := fst p; ev_value := v; ev_read := false;
                         ev_reply := snd p |}) calls).
Proof.
  intros Hs. induction calls as [|[t device] calls IH]; [done|].
  cbn [gets map fold_left run_op]. unfold get_cached_device_status.
  rewrite Hs. fold (gets calls). rewrite run_op_events, IH. done.
Qed.

(** X28. In a history of calls made one after the other, until the cache
    is cleared every call returns what the first call returned: the first
    call reads the device (if there is one), the later calls do not,
    whatever the device would reply to them. *)
Theorem calls_between_clears_agree
    (t0 : Z) (device0 : option StatusReply)
    (later : list (Z * option StatusReply)) :
  Forall (fun ev => ev_value ev = device_status_body device0)
         (snd (run_cache (OpGet t0 device0 :: gets later))) /\
  Forall (fun ev => ev_read ev = false)
         (drop 1 (snd (run_cache (OpGet t0 device0 :: gets later)))) /\
  (device_reads (fst (run_cache (OpGet t0 device0 :: gets later))) <= 1)%nat.
Proof.
  unfold run_cache. cbn [fold_left run_op].
  unfold get_cached_device_status. cbn [empty_cache slot device_reads app].
  rewrite run_op_events, (gets_on_filled_slot (device_status_body device0))
    by done.
  cbn [fst snd app drop device_reads]. split_and!.
  - constructor; [done|]. apply Forall_forall.
    by intros ev (p & -> & _)%list_elem_of_fmap.
  - apply Forall_forall. by intros ev (p & -> & _)%list_elem_of_fmap.
  - destruct device0; lia.
Qed.
